(** * SPNEGO / Kerberos HTTP authentication gate (package [service], http.go)

    A shallow embedding of [service/http.go]: the AP-REQ validation pipeline
    [validateAPREQ], the reject helper [rejectSPNEGO] and the handler wrapper
    [SPNEGOKRB5Authenticate], followed by the properties the specification
    states about them.

    Conventions.
    - Go's [time.Time] is an instant, kept as the integer count of nanoseconds
      since the Unix epoch; [time.Duration] is Go's [int64] count of
      nanoseconds, with the wrap-around of its multiplication and the
      saturation of [Time.Sub] written out.
    - Mutable process state (wall clock, replay cache) is threaded
      explicitly as a [World]; the per-request mutable objects (response
      writer, logger, what is handed downstream) are threaded as a [Conn].
    - A Go panic is the [Panicked] result. *)

From Stdlib Require Import ZArith Lia.
From stdpp Require Import base strings list gmap.

Local Open Scope Z_scope.

(** ** Package [time] *)

Module time.

(** An instant, in nanoseconds since the epoch.  [Time.UTC] only changes the
    location a time is displayed in, never the instant. *)
Definition Time : Type := Z.
(** [int64] nanoseconds. *)
Definition Duration : Type := Z.

Definition minDuration : Duration := - 2 ^ 63.
Definition maxDuration : Duration := 2 ^ 63 - 1.

(** Two's complement reduction of an integer to [int64]. *)
Definition wrap64 (z : Z) : Z := (z + 2 ^ 63) mod 2 ^ 64 - 2 ^ 63.

Definition Nanosecond : Duration := 1.
Definition Microsecond : Duration := 1000 * Nanosecond.
Definition Millisecond : Duration := 1000 * Microsecond.
Definition Second : Duration := 1000 * Millisecond.
Definition Minute : Duration := 60 * Second.

(** [Duration(x) * y] on [int64]. *)
Definition mul (x y : Duration) : Duration := wrap64 (x * y).

(** [t.Add(d)]. *)
Definition Add (t : Time) (d : Duration) : Time := t + d.

(** [t.Sub(u)]: the difference, replaced by the largest (smallest)
    [Duration] when it does not fit. *)
Definition Sub (t u : Time) : Duration :=
  if maxDuration <? t - u then maxDuration
  else if t - u <? minDuration then minDuration
  else t - u.

(** [x > y] on durations. *)
Definition gt (x y : Duration) : bool := y <? x.

End time.

(** ** Package [types] *)

Module types.

(** [types.PrincipalName]. *)
Record PrincipalName : Type := mkPrincipalName {
  NameType : Z;
  NameString : list string
}.

#[global] Instance PrincipalName_eq_dec : EqDecision PrincipalName.
Proof. solve_decision. Defined.

(** Modelled from the spec: [PrincipalName.Equal], which lives in the
    [types] package: "the client principal name asserted in the authenticator
    must equal the client principal name bound inside the ticket". *)
Definition Equal (pn n : PrincipalName) : bool := bool_decide (pn = n).

(** [types.Authenticator], the fields the service reads. *)
Record Authenticator : Type := mkAuthenticator {
  CRealm : string;
  CName : PrincipalName;
  Cusec : Z;              (* Go [int] *)
  CTime : time.Time
}.

(** Modelled from the spec: [PrincipalName.GetPrincipalNameString], the
    "authenticated client principal name (string)": the name's components
    joined by [/]. *)
Definition GetPrincipalNameString (pn : PrincipalName) : string :=
  String.concat "/" (NameString pn).

(** Ticket flags, an ASN.1 bit string: bit [i] is the [i]-th element, and a
    bit past the end reads as unset. *)
Definition BitString : Type := list bool.

(** Modelled from the spec: the flag number of the ticket's "invalid" flag
    (RFC 4120 ticket flag 7), a constant of the [types] package. *)
Definition Invalid : nat := 7.

(** Modelled from the spec: [types.IsFlagSet], "the ticket's invalid flag is
    set". *)
Definition IsFlagSet (f : BitString) (i : nat) : bool := nth i f false.

Record EncryptionKey : Type := mkEncryptionKey {
  KeyType : Z;
  KeyValue : list Byte.byte
}.

Record EncryptedData : Type := mkEncryptedData {
  EType : Z;
  KVNO : Z;
  Cipher : list Byte.byte
}.

End types.

(** ** Package [iana/errorcode] *)

Module errorcode.

(** The Kerberos error codes the validation uses, by the names of the
    constants of [iana/errorcode]. *)
Inductive t : Type :=
| KRB_AP_ERR_TKT_EXPIRED
| KRB_AP_ERR_TKT_NYV
| KRB_AP_ERR_REPEAT
| KRB_AP_ERR_BADMATCH
| KRB_AP_ERR_SKEW.

#[global] Instance t_eq_dec : EqDecision t.
Proof. solve_decision. Defined.

End errorcode.

(** ** Package [messages] *)

Module messages.

(** The decrypted part of a ticket ([EncTicketPart]), the fields read. *)
Record EncTicketPart : Type := mkEncTicketPart {
  Flags : types.BitString;
  Key : types.EncryptionKey;
  CName : types.PrincipalName;
  StartTime : time.Time;
  EndTime : time.Time
}.

Record Ticket : Type := mkTicket {
  Realm : string;
  SName : types.PrincipalName;
  EncPart : types.EncryptedData;
  DecryptedEncPart : EncTicketPart
}.

Record APReq : Type := mkAPReq {
  Ticket_ : Ticket;
  Authenticator : types.EncryptedData
}.

Record KRBError : Type := mkKRBError {
  err_SName : types.PrincipalName;
  err_Realm : string;
  ErrorCode : errorcode.t;
  EText : string
}.

(** Modelled from the spec: [messages.NewKRBError], the constructor of a
    rejection "{reason code, message}" for a service principal and realm. *)
Definition NewKRBError (sname : types.PrincipalName) (realm : string)
    (code : errorcode.t) (etext : string) : KRBError :=
  mkKRBError sname realm code etext.

End messages.

(** ** Process state: wall clock and replay cache *)

(** The authenticator fingerprint, the key of the replay cache. *)
Record Fingerprint : Type := mkFingerprint {
  fp_cname : types.PrincipalName;
  fp_crealm : string;
  fp_sname : types.PrincipalName;
  fp_ctime : time.Time
}.

#[global] Instance Fingerprint_eq_dec : EqDecision Fingerprint.
Proof. solve_decision. Defined.

Record CacheEntry : Type := mkCacheEntry {
  entry_fp : Fingerprint;
  inserted : time.Time
}.

(** The process-wide state a validation can touch: how many times the wall
    clock has been read so far, and the singleton replay cache. *)
Record World : Type := mkWorld {
  ticks : nat;
  replayCache : list CacheEntry
}.

Section Clock.

(** The wall clock: [wall k] is what the [k]-th call of [time.Now] of the
    process returns. *)
Variable wall : nat -> time.Time.

(** [time.Now()]. *)
Definition Now (w : World) : time.Time * World :=
  (wall (ticks w), mkWorld (S (ticks w)) (replayCache w)).

(** *** The replay cache *)

(** Modelled from the spec: the eviction of the ReplayCache: "entries whose
    insertion time is older than now - window are evicted", done lazily on
    each call. *)
Definition evict (now : time.Time) (window : time.Duration)
    (c : list CacheEntry) : list CacheEntry :=
  filter (fun e => now - window <= inserted e) c.

(** Is a fingerprint held by the cache? *)
Definition seen (fp : Fingerprint) (c : list CacheEntry) : bool :=
  bool_decide (fp ∈ entry_fp <$> c).

(** Modelled from the spec: [CheckAndRecord(window, fingerprint)] of the
    ReplayCache: "returns true if the fingerprint was already present
    (replay detected; no mutation), otherwise inserts the fingerprint and
    returns false"; one atomic step. *)
Definition CheckAndRecord (window : time.Duration) (fp : Fingerprint)
    (w : World) : bool * World :=
  let '(now, w) := Now w in
  let live := evict now window (replayCache w) in
  if seen fp live then (true, mkWorld (ticks w) live)
  else (false, mkWorld (ticks w) (mkCacheEntry fp now :: live)).

(** Modelled from the spec: [GetReplayCache(d)], the accessor of the
    "process-wide singleton" cache: it hands out the one cache of the
    process, whatever [d] is. *)
Definition GetReplayCache (d : time.Duration) (w : World) : World := w.

(** Modelled from the spec: the fingerprint "derived from this context":
    "{client principal name, client realm, service principal name,
    authenticator timestamp (to microsecond resolution)}". *)
Definition fingerprint (sname : types.PrincipalName)
    (a : types.Authenticator) : Fingerprint :=
  mkFingerprint (types.CName a) (types.CRealm a) sname
    (time.Add (types.CTime a) (time.mul (types.Cusec a) time.Microsecond)).

(** Modelled from the spec: [rc.IsReplay(d, sname, a)], the replay check:
    "query ReplayCache with the fingerprint derived from this context and
    the same d as the window". *)
Definition IsReplay (d : time.Duration) (sname : types.PrincipalName)
    (a : types.Authenticator) (w : World) : bool * World :=
  CheckAndRecord d (fingerprint sname a) w.

(** *** [validateAPREQ] *)

(** The text [fmt.Sprintf] produces for the clock-skew error: a [Duration]
    of five minutes prints as [5m0s] under [%v]. *)
Definition skew_etext : string :=
  "Clock skew with client too large. Greater than 5m0s seconds".

(** [func validateAPREQ(a types.Authenticator, APReq messages.APReq) (bool, error)].
    The last statement of the source is a bare [return true]; it is read as
    returning [true] with a nil error. *)
Definition validateAPREQ (a : types.Authenticator) (APReq : messages.APReq)
    (w : World) : bool * option messages.KRBError * World :=
  let tkt := messages.Ticket_ APReq in
  let enc := messages.DecryptedEncPart tkt in
  (* Check CName in Authenticator is the same as that in the ticket *)
  if negb (types.Equal (types.CName a) (messages.CName enc)) then
    let err := messages.NewKRBError (messages.SName tkt) (messages.Realm tkt)
                 errorcode.KRB_AP_ERR_BADMATCH
                 "CName in Authenticator does not match that in service ticket" in
    (false, Some err, w)
  else
  (* Check the clock skew between the client and the service server *)
  let ct := time.Add (types.CTime a) (time.mul (types.Cusec a) time.Microsecond) in
  let '(t, w) := Now w in
  (* Hardcode 5 min max skew. *)
  let d := time.mul 5 time.Minute in
  if time.gt (time.Sub t ct) d || time.gt (time.Sub ct t) d then
    let err := messages.NewKRBError (messages.SName tkt) (messages.Realm tkt)
                 errorcode.KRB_AP_ERR_SKEW skew_etext in
    (false, Some err, w)
  else
  (* Check for replay *)
  let rc := GetReplayCache d w in
  let '(replay, w) := IsReplay d (messages.SName tkt) a rc in
  if replay then
    let err := messages.NewKRBError (messages.SName tkt) (messages.Realm tkt)
                 errorcode.KRB_AP_ERR_REPEAT "Replay detected" in
    (false, Some err, w)
  else
  (* Check for future tickets or invalid tickets *)
  if time.gt (time.Sub (messages.StartTime enc) t) d
     || types.IsFlagSet (messages.Flags enc) types.Invalid then
    let err := messages.NewKRBError (messages.SName tkt) (messages.Realm tkt)
                 errorcode.KRB_AP_ERR_TKT_NYV
                 "Service ticket provided is not yet valid" in
    (false, Some err, w)
  else
  (* Check for expired ticket *)
  if time.gt (time.Sub t (messages.EndTime enc)) d then
    let err := messages.NewKRBError (messages.SName tkt) (messages.Realm tkt)
                 errorcode.KRB_AP_ERR_TKT_EXPIRED
                 "Service ticket provided has expired" in
    (false, Some err, w)
  else (true, None, w).

End Clock.

(** ** Package [strings] *)

Module strings.

(** [strip p s]: what follows [p] in [s] when [s] starts with [p]. *)
Fixpoint strip (p s : string) : option string :=
  match p with
  | EmptyString => Some s
  | String c p' =>
      match s with
      | String c' s' => if Ascii.eqb c c' then strip p' s' else None
      | EmptyString => None
      end
  end.

(** [cut sep s]: the text before and after the first occurrence of [sep]
    in [s] (what [strings.Index] locates). *)
Fixpoint cut (sep s : string) : option (string * string) :=
  match strip sep s with
  | Some rest => Some (EmptyString, rest)
  | None =>
      match s with
      | EmptyString => None
      | String c s' =>
          match cut sep s' with
          | Some (before, after) => Some (String c before, after)
          | None => None
          end
      end
  end.

(** [strings.SplitN(s, sep, n)] for a non-empty [sep] and [n >= 0]: at most
    [n] substrings, the last one the unsplit remainder; [n = 0] gives none. *)
Fixpoint SplitN (s sep : string) (n : nat) : list string :=
  match n with
  | O => []
  | S O => [s]
  | S n' =>
      match cut sep s with
      | Some (before, after) => before :: SplitN after sep n'
      | None => [s]
      end
  end.

End strings.

(** ** Package [net/http] *)

Module http.

(** [http.Header]: a map from a header name to its values.  A key is the
    name as the code writes it; the canonical spelling net/http gives to
    header names is the same on both sides of every lookup and is left out. *)
Abbreviation Header := (gmap string (list string)).

(** [h.Get(key)]: the first value of the key, or the empty string. *)
Definition Get (h : Header) (key : string) : string :=
  match h !! key with
  | Some (v :: _) => v
  | _ => EmptyString
  end.

(** [h.Set(key, value)]: the key's values become the single [value]. *)
Definition Set_ (h : Header) (key value : string) : Header :=
  <[key := [value]]> h.

(** A value stored in a [context.Context]. *)
Inductive Value : Type :=
| VString (s : string)
| VBool (b : bool).

(** [context.Context]: the chain of [WithValue] bindings, newest first. *)
Definition Context : Type := list (string * Value).

(** [context.WithValue(ctx, key, val)]. *)
Definition WithValue (ctx : Context) (key : string) (val : Value) : Context :=
  (key, val) :: ctx.

(** [ctx.Value(key)]: the newest binding of the key. *)
Fixpoint Value_ (ctx : Context) (key : string) : option Value :=
  match ctx with
  | [] => None
  | (k, v) :: ctx' => if String.eqb k key then Some v else Value_ ctx' key
  end.

Record Request : Type := mkRequest {
  Header_ : Header;
  RemoteAddr : string;
  ctx_ : Context
}.

(** [r.WithContext(ctx)]. *)
Definition WithContext (r : Request) (ctx : Context) : Request :=
  mkRequest (Header_ r) (RemoteAddr r) ctx.

(** [http.ResponseWriter], as a recorder of what the handler does to it:
    the header map, the status code once written, and the body. *)
Record ResponseWriter : Type := mkResponseWriter {
  w_Header : Header;
  Code : option Z;
  Body : string
}.

(** A writer nothing has been written to, with a given header map. *)
Definition fresh (h : Header) : ResponseWriter :=
  mkResponseWriter h None EmptyString.

(** [w.Header().Set(key, value)]. *)
Definition SetHeader (w : ResponseWriter) (key value : string) : ResponseWriter :=
  mkResponseWriter (Set_ (w_Header w) key value) (Code w) (Body w).

(** [w.WriteHeader(code)]: the first status code written stands. *)
Definition WriteHeader (w : ResponseWriter) (code : Z) : ResponseWriter :=
  match Code w with
  | Some _ => w
  | None => mkResponseWriter (w_Header w) (Some code) (Body w)
  end.

(** [w.Write(b)]: writes status 200 first when none was written. *)
Definition Write (w : ResponseWriter) (b : string) : ResponseWriter :=
  let w := WriteHeader w 200 in
  mkResponseWriter (w_Header w) (Code w) (Body w ++ b).

End http.

(** ** Package [GSSAPI] *)

Module GSSAPI.

(** [asn1.ObjectIdentifier], with its [Equal]. *)
Definition ObjectIdentifier : Type := list Z.

Definition Equal (oi other : ObjectIdentifier) : bool :=
  bool_decide (oi = other).

Record NegTokenInit : Type := mkNegTokenInit {
  MechTypes : list ObjectIdentifier;
  MechToken_ : list Byte.byte
}.

Record NegTokenResp : Type := mkNegTokenResp {
  NegState : Z;
  ResponseToken : list Byte.byte
}.

(** The dynamic value [UnmarshalNegToken] returns as an [interface{}]. *)
Inductive NegToken : Type :=
| Nil
| Init (n : NegTokenInit)
| Resp (n : NegTokenResp).

Record MechToken : Type := mkMechToken {
  TokID : list Byte.byte;
  APReq : messages.APReq
}.

End GSSAPI.

(** ** Package [service] *)

Definition SPNEGO_NegTokenResp_Krb_Accept_Completed : string :=
  "Negotiate oRQwEqADCgEAoQsGCSqGSIb3EgECAg==".
Definition SPNEGO_NegTokenResp_Reject : string :=
  "Negotiate oQcwBaADCgEC".

(** The text of a Go [error]; [None] is the nil error. *)
Definition error : Type := string.

(** [%v] of an error value. *)
Definition show (err : option error) : string :=
  match err with
  | Some e => e
  | None => "<nil>"
  end.

(** The collaborators of the handler that live outside [service/http.go]:
    base64 and token decoding, ticket and authenticator decryption. *)
Record Externals (Keytab : Type) : Type := mkExternals {
  (** [base64.StdEncoding.DecodeString] *)
  DecodeString : string -> list Byte.byte + error;
  (** [GSSAPI.UnmarshalNegToken]: (isInit, token, err) *)
  UnmarshalNegToken : list Byte.byte -> bool * GSSAPI.NegToken * option error;
  (** [GSSAPI.MechTypeOID_Krb5] *)
  MechTypeOID_Krb5 : GSSAPI.ObjectIdentifier;
  (** [mt.Unmarshal] *)
  MechToken_Unmarshal : list Byte.byte -> GSSAPI.MechToken + error;
  (** [mt.IsAPReq] *)
  IsAPReq : GSSAPI.MechToken -> bool;
  (** [Ticket.DecryptEncPart(ktab)]: the ticket with its decrypted part filled in *)
  Ticket_DecryptEncPart : messages.Ticket -> Keytab -> messages.Ticket + error;
  (** [crypto.DecryptEncPart(data, key, usage)] *)
  DecryptEncPart : types.EncryptedData -> types.EncryptionKey -> Z -> list Byte.byte + error;
  (** [keyusage.AP_REQ_AUTHENTICATOR] *)
  AP_REQ_AUTHENTICATOR : Z;
  (** [a.Unmarshal] *)
  Authenticator_Unmarshal : list Byte.byte -> types.Authenticator + error;
  (** [Error()] of a [messages.KRBError] *)
  KRBError_Error : messages.KRBError -> error
}.

Arguments DecodeString {Keytab}.
Arguments UnmarshalNegToken {Keytab}.
Arguments MechTypeOID_Krb5 {Keytab}.
Arguments MechToken_Unmarshal {Keytab}.
Arguments IsAPReq {Keytab}.
Arguments Ticket_DecryptEncPart {Keytab}.
Arguments DecryptEncPart {Keytab}.
Arguments AP_REQ_AUTHENTICATOR {Keytab}.
Arguments Authenticator_Unmarshal {Keytab}.
Arguments KRBError_Error {Keytab}.

(** What one request can change: the process state, the logger [l] ([None]
    is the nil logger, otherwise the lines printed so far), the response
    writer [w], and the requests handed to the downstream handler [f]. *)
Record Conn : Type := mkConn {
  world : World;
  l : option (list string);
  w : http.ResponseWriter;
  forwarded : list http.Request
}.

(** The run-time panics the handler can raise. *)
Inductive Panic : Type :=
| IndexOutOfRange (index length : nat)   (* [s[index]] on a slice of that length *)
| InterfaceConversion (wanted : string). (* a failed type assertion [x.(wanted)] *)

(** How a handler call ends: it returns, or it panics, in the state it had
    reached. *)
Inductive Result : Type :=
| Returned (c : Conn)
| Panicked (p : Panic) (c : Conn).

(** The line feed that ends the response body. *)
Definition newline : string := String (Ascii.ascii_of_nat 10) EmptyString.

(** [l.Println(logMsg)]. *)
Definition Println (lg : list string) (msg : string) : list string :=
  lg ++ [msg].

(** [func rejectSPNEGO(w http.ResponseWriter, l *log.Logger, logMsg string)]. *)
Definition rejectSPNEGO (c : Conn) (logMsg : string) : Conn :=
  let lg := match l c with
            | Some lines => Some (Println lines logMsg)
            | None => None
            end in
  let w := http.SetHeader (w c) "WWW-Authenticate" SPNEGO_NegTokenResp_Reject in
  let w := http.WriteHeader w 401 in
  let w := http.Write w ("Unauthorised." ++ newline) in
  mkConn (world c) lg w (forwarded c).

Section Handler.

Variable wall : nat -> time.Time.
Context {Keytab : Type}.
Variable ext : Externals Keytab.

(** The downstream handler [f]: what it writes to the response, given the
    request it receives. *)
Variable f : http.ResponseWriter -> http.Request -> http.ResponseWriter.

Variable ktab : Keytab.

(** The log lines of the handler, as [fmt.Sprintf] builds them. *)
Definition msg_base64 (r : http.Request) (err : error) : string :=
  http.RemoteAddr r ++ " - SPNEGO error in base64 decoding negotiation header: " ++ err.
Definition msg_not_init (r : http.Request) (err : option error) : string :=
  http.RemoteAddr r ++ " - SPNEGO negotiation token is not a NegTokenInit: " ++ show err.
Definition msg_oid (r : http.Request) : string :=
  http.RemoteAddr r ++ " - SPNEGO OID of MechToken is not of type KRB5".
Definition msg_mechtoken (r : http.Request) (err : error) : string :=
  http.RemoteAddr r ++ " - SPNEGO error unmarshaling MechToken: " ++ err.
Definition msg_not_apreq (r : http.Request) : string :=
  http.RemoteAddr r ++ " - MechToken does not contain an AP_REQ - KRB_AP_ERR_MSG_TYPE".
Definition msg_ticket (r : http.Request) (err : error) : string :=
  http.RemoteAddr r ++ " - SPNEGO error decrypting the service ticket provided: " ++ err.
Definition msg_authenticator (r : http.Request) (err : error) : string :=
  http.RemoteAddr r ++ " - SPNEGO error decrypting the authenticator provided: " ++ err.
Definition msg_unmarshal (r : http.Request) (err : error) : string :=
  http.RemoteAddr r ++ " - SPNEGO error unmarshalling the authenticator: " ++ err.
Definition msg_failed (r : http.Request) (err : option messages.KRBError) : string :=
  http.RemoteAddr r ++ " - SPNEGO Kerberos authentication failed: "
    ++ show (KRBError_Error ext <$> err).

(** The closure [SPNEGOKRB5Authenticate(f, ktab, l)] returns, applied to a
    request [r]; the writer [w] and the logger [l] are in the [Conn]. *)
Definition SPNEGOKRB5Authenticate (r : http.Request) (c : Conn) : Result :=
  let s := strings.SplitN (http.Get (http.Header_ r) "Authorization") " " 2 in
  if negb (length s =? 2)%nat || negb (String.eqb (nth 0 s EmptyString) "Negotiate") then
    let w := http.SetHeader (w c) "WWW-Authenticate" "Negotiate" in
    let w := http.WriteHeader w 401 in
    let w := http.Write w ("Unauthorised." ++ newline) in
    Returned (mkConn (world c) (l c) w (forwarded c))
  else
  match DecodeString ext (nth 1 s EmptyString) with
  | inr err => Returned (rejectSPNEGO c (msg_base64 r err))
  | inl b =>
  let '(isInit, nt, err) := UnmarshalNegToken ext b in
  if bool_decide (err ≠ None) || negb isInit then
    Returned (rejectSPNEGO c (msg_not_init r err))
  else
  match nt with
  | GSSAPI.Nil | GSSAPI.Resp _ =>
      Panicked (InterfaceConversion "GSSAPI.NegTokenInit") c
  | GSSAPI.Init nInit =>
  match GSSAPI.MechTypes nInit with
  | [] => Panicked (IndexOutOfRange 0 0) c
  | mech0 :: _ =>
  if negb (GSSAPI.Equal mech0 (MechTypeOID_Krb5 ext)) then
    Returned (rejectSPNEGO c (msg_oid r))
  else
  match MechToken_Unmarshal ext (GSSAPI.MechToken_ nInit) with
  | inr err => Returned (rejectSPNEGO c (msg_mechtoken r err))
  | inl mt =>
  if negb (IsAPReq ext mt) then
    Returned (rejectSPNEGO c (msg_not_apreq r))
  else
  match Ticket_DecryptEncPart ext (messages.Ticket_ (GSSAPI.APReq mt)) ktab with
  | inr err => Returned (rejectSPNEGO c (msg_ticket r err))
  | inl tkt =>
  let APReq := messages.mkAPReq tkt (messages.Authenticator (GSSAPI.APReq mt)) in
  match DecryptEncPart ext (messages.Authenticator APReq)
          (messages.Key (messages.DecryptedEncPart tkt))
          (AP_REQ_AUTHENTICATOR ext) with
  | inr err => Returned (rejectSPNEGO c (msg_authenticator r err))
  | inl ab =>
  match Authenticator_Unmarshal ext ab with
  | inr err => Returned (rejectSPNEGO c (msg_unmarshal r err))
  | inl a =>
  let '(ok, err, world') := validateAPREQ wall a APReq (world c) in
  let c := mkConn world' (l c) (w c) (forwarded c) in
  if ok then
    let ctx := http.ctx_ r in
    let ctx := http.WithValue ctx "cname"
                 (http.VString (types.GetPrincipalNameString (types.CName a))) in
    let ctx := http.WithValue ctx "crealm" (http.VString (types.CRealm a)) in
    let ctx := http.WithValue ctx "authenticated" (http.VBool true) in
    let w := http.SetHeader (w c) "WWW-Authenticate"
               SPNEGO_NegTokenResp_Krb_Accept_Completed in
    let r' := http.WithContext r ctx in
    Returned (mkConn (world c) (l c) (f w r') (forwarded c ++ [r']))
  else
    Returned (rejectSPNEGO c (msg_failed r err))
  end end end end end end end.

End Handler.

(** * Specification-level vocabulary *)

(** The configured default of the maximum clock skew: five minutes, in
    nanoseconds. *)
Definition max_skew : time.Duration := 5 * 60 * 10 ^ 9.

(** The reasons the TicketValidator rejects with. *)
Inductive Reason : Type :=
| BadMatch
| ClockSkew
| Replay
| NotYetValid
| Expired.

#[global] Instance Reason_eq_dec : EqDecision Reason.
Proof. solve_decision. Defined.

Inductive AuthDecision : Type :=
| Accepted
| Rejected (reason : Reason).

#[global] Instance AuthDecision_eq_dec : EqDecision AuthDecision.
Proof. solve_decision. Defined.

(** The reason a Kerberos error code stands for. *)
Definition reason_of (code : errorcode.t) : Reason :=
  match code with
  | errorcode.KRB_AP_ERR_BADMATCH => BadMatch
  | errorcode.KRB_AP_ERR_SKEW => ClockSkew
  | errorcode.KRB_AP_ERR_REPEAT => Replay
  | errorcode.KRB_AP_ERR_TKT_NYV => NotYetValid
  | errorcode.KRB_AP_ERR_TKT_EXPIRED => Expired
  end.

(** The decision a Go result [(ok, err)] of [validateAPREQ] encodes; a result
    that is neither [(true, nil)] nor [(false, err)] encodes none. *)
Definition decision (res : bool * option messages.KRBError) : option AuthDecision :=
  match res with
  | (true, None) => Some Accepted
  | (false, Some e) => Some (Rejected (reason_of (messages.ErrorCode e)))
  | _ => None
  end.

(** The authenticator time: the timestamp plus the microsecond offset, as the
    code computes it. *)
Definition authenticator_time (a : types.Authenticator) : time.Time :=
  time.Add (types.CTime a) (time.mul (types.Cusec a) time.Microsecond).

(** The ticket inside an AP-REQ, decrypted. *)
Definition ticket_part (APReq : messages.APReq) : messages.EncTicketPart :=
  messages.DecryptedEncPart (messages.Ticket_ APReq).

(** The five checks, each as the condition under which it fails, over exact
    integer arithmetic. *)
Definition principal_mismatch (a : types.Authenticator) (APReq : messages.APReq) : bool :=
  bool_decide (types.CName a ≠ messages.CName (ticket_part APReq)).

Definition skew_exceeded (d : time.Duration) (a : types.Authenticator)
    (now : time.Time) : bool :=
  bool_decide (d < Z.abs (now - authenticator_time a)).

Definition not_yet_valid (d : time.Duration) (APReq : messages.APReq)
    (now : time.Time) : bool :=
  bool_decide (d < messages.StartTime (ticket_part APReq) - now)
  || types.IsFlagSet (messages.Flags (ticket_part APReq)) types.Invalid.

Definition expired (d : time.Duration) (APReq : messages.APReq)
    (now : time.Time) : bool :=
  bool_decide (d < now - messages.EndTime (ticket_part APReq)).

(** The decision of an ordered list of checks: the reason of the first one
    that fails, acceptance when none does. *)
Fixpoint first_failure (checks : list (Reason * bool)) : AuthDecision :=
  match checks with
  | [] => Accepted
  | (reason, fails) :: rest => if fails then Rejected reason else first_failure rest
  end.

(** The handler's test of the split header value: it is [true] when the
    challenge is sent. *)
Definition lacks_credential (s : list string) : bool :=
  negb (length s =? 2)%nat || negb (String.eqb (nth 0 s EmptyString) "Negotiate").

(** The TicketValidator of the specification for a configured maximum skew
    [d], in the specification's words: the ordered checks of section 4.2, the
    clock read once, [d] both the skew bound and the replay window. *)
Definition TicketValidator (wall : nat -> time.Time) (d : time.Duration)
    (a : types.Authenticator) (APReq : messages.APReq) (w : World)
    : AuthDecision * World :=
  if principal_mismatch a APReq then (Rejected BadMatch, w) else
  let '(now, w) := Now wall w in
  if skew_exceeded d a now then (Rejected ClockSkew, w) else
  let '(replay, w) :=
    CheckAndRecord wall d (fingerprint (messages.SName (messages.Ticket_ APReq)) a) w in
  if replay then (Rejected Replay, w) else
  if not_yet_valid d APReq now then (Rejected NotYetValid, w) else
  if expired d APReq now then (Rejected Expired, w) else
  (Accepted, w).

(** * Concrete scenarios

    Principals, tickets, authenticators and clocks the properties below are
    exercised on.  Times are nanoseconds; [minute] is one minute. *)

Module Scenario.

Definition minute : Z := 60 * 10 ^ 9.

Definition realm : string := "EXAMPLE.COM".
Definition alice : types.PrincipalName := types.mkPrincipalName 1 ["alice"].
Definition mallory : types.PrincipalName := types.mkPrincipalName 1 ["mallory"].
Definition http_service : types.PrincipalName :=
  types.mkPrincipalName 3 ["HTTP"; "www.example.com"].

Definition session_key : types.EncryptionKey := types.mkEncryptionKey 18 [].
Definition sealed : types.EncryptedData := types.mkEncryptedData 18 1 [].

(** A decrypted service ticket for [http_service], issued to [cname], valid
    from [start] to [finish]. *)
Definition ticket_for (cname : types.PrincipalName) (flags : types.BitString)
    (start finish : time.Time) : messages.Ticket :=
  messages.mkTicket realm http_service sealed
    (messages.mkEncTicketPart flags session_key cname start finish).

Definition apreq_for (cname : types.PrincipalName) (flags : types.BitString)
    (start finish : time.Time) : messages.APReq :=
  messages.mkAPReq (ticket_for cname flags start finish) sealed.

(** An authenticator of [cname] stamped [ctime], microsecond offset 0. *)
Definition authenticator_of (cname : types.PrincipalName) (ctime : time.Time)
    : types.Authenticator :=
  types.mkAuthenticator realm cname 0 ctime.

(** Alice's authenticator stamped at time 0, a ticket of hers valid for
    the first hour, and one that expired ten minutes before time 0. *)
Definition a : types.Authenticator := authenticator_of alice 0.
Definition ap : messages.APReq := apreq_for alice [] 0 (60 * minute).
Definition stale : messages.APReq :=
  apreq_for alice [] (- 60 * minute) (- 10 * minute).

(** A wall clock that returns the given readings in turn, then repeats the
    last one. *)
Definition readings (l : list time.Time) : nat -> time.Time :=
  fun k => nth k l (List.last l 0).

(** The process just started: clock never read, replay cache empty. *)
Definition boot : World := mkWorld 0 [].

Definition krb5_oid : GSSAPI.ObjectIdentifier := [1; 2; 840; 113554; 1; 2; 2].

(** Collaborators that answer from a script: every credential but [!!!]
    decodes, to a NegTokenInit offering the mechanisms [mechs], whose
    mechanism token is the AP-REQ [ap]; every decryption succeeds and the
    authenticator is [a]. *)
Definition scripted (mechs : list GSSAPI.ObjectIdentifier)
    (ap : messages.APReq) (a : types.Authenticator) : Externals unit :=
  {| DecodeString := fun s =>
       if String.eqb s "!!!" then inr "illegal base64 data at input byte 0"
       else inl [];
     UnmarshalNegToken := fun _ =>
       (true, GSSAPI.Init (GSSAPI.mkNegTokenInit mechs []), None);
     MechTypeOID_Krb5 := krb5_oid;
     MechToken_Unmarshal := fun _ => inl (GSSAPI.mkMechToken [] ap);
     IsAPReq := fun _ => true;
     Ticket_DecryptEncPart := fun t _ => inl t;
     DecryptEncPart := fun _ _ _ => inl [];
     AP_REQ_AUTHENTICATOR := 11;
     Authenticator_Unmarshal := fun _ => inl a;
     KRBError_Error := messages.EText |}.

(** Collaborators as they answer an empty credential: base64 decodes the
    empty string to no bytes, and no bytes are no negotiation token. *)
Definition empty_handed : Externals unit :=
  {| DecodeString := fun s =>
       if String.eqb s EmptyString then inl []
       else inr "illegal base64 data at input byte 0";
     UnmarshalNegToken := fun _ =>
       (false, GSSAPI.Nil, Some "asn1: syntax error: sequence truncated");
     MechTypeOID_Krb5 := krb5_oid;
     MechToken_Unmarshal := fun _ => inr "asn1: syntax error: sequence truncated";
     IsAPReq := fun _ => false;
     Ticket_DecryptEncPart := fun _ _ => inr "matching key not found in keytab";
     DecryptEncPart := fun _ _ _ => inr "error decrypting";
     AP_REQ_AUTHENTICATOR := 11;
     Authenticator_Unmarshal := fun _ => inr "asn1: syntax error: sequence truncated";
     KRBError_Error := messages.EText |}.

(** A request from 192.0.2.7 whose Authorization header has the given values. *)
Definition request_with (authorization : list string) : http.Request :=
  http.mkRequest {[ "Authorization" := authorization ]} "192.0.2.7:40000" [].

(** A request with no header at all. *)
Definition bare_request : http.Request :=
  http.mkRequest ∅ "192.0.2.7:40000" [].

(** A downstream handler that answers 200 with a greeting. *)
Definition hello (w : http.ResponseWriter) (r : http.Request) : http.ResponseWriter :=
  http.Write w "hello".

(** A connection on the freshly started process, with a logger that has
    printed nothing and an untouched response writer. *)
Definition connection : Conn := mkConn boot (Some []) (http.fresh ∅) [].

End Scenario.

(** * Arithmetic of durations *)

Lemma mul_5_Minute : time.mul 5 time.Minute = max_skew.
Proof. reflexivity. Qed.

(** Saturation never changes the outcome of comparing a difference of two
    instants with a duration that is not the largest one. *)
Lemma gt_Sub (t u : time.Time) (d : time.Duration) :
  time.minDuration <= d < time.maxDuration ->
  time.gt (time.Sub t u) d = bool_decide (d < t - u).
Proof.
  unfold time.gt, time.Sub, time.minDuration, time.maxDuration.
  intros Hd.
  case_bool_decide;
    repeat match goal with
           | |- context [if ?x <? ?y then _ else _] => destruct (Z.ltb_spec x y)
           end;
    match goal with
    | |- (?x <? ?y) = _ => destruct (Z.ltb_spec x y)
    end; try reflexivity; lia.
Qed.

Lemma max_skew_range : time.minDuration <= max_skew < time.maxDuration.
Proof. unfold time.minDuration, time.maxDuration, max_skew. lia. Qed.

Lemma gt_Sub_skew (t u : time.Time) :
  time.gt (time.Sub t u) max_skew = bool_decide (max_skew < t - u).
Proof. apply gt_Sub, max_skew_range. Qed.

(** The two one-sided skew tests of the code are the absolute-value test. *)
Lemma skew_test (a : types.Authenticator) (t : time.Time) :
  time.gt (time.Sub t (authenticator_time a)) max_skew
  || time.gt (time.Sub (authenticator_time a) t) max_skew
  = skew_exceeded max_skew a t.
Proof.
  rewrite !gt_Sub_skew. unfold skew_exceeded.
  repeat case_bool_decide; simpl; try reflexivity; lia.
Qed.

(** A microsecond offset whose nanosecond count fits [int64] is added
    exactly. *)
Lemma authenticator_time_exact (a : types.Authenticator) :
  time.minDuration <= types.Cusec a * 1000 <= time.maxDuration ->
  authenticator_time a = types.CTime a + types.Cusec a * 1000.
Proof.
  unfold authenticator_time, time.Add, time.mul, time.wrap64,
    time.Microsecond, time.Nanosecond, time.minDuration, time.maxDuration.
  intros H. rewrite Z.mul_1_r.
  rewrite Z.mod_small by lia. lia.
Qed.

(** * The validation pipeline *)

Section Validation.

Variable wall : nat -> time.Time.

(** [types.Equal] decides the mismatch of principals. *)
Lemma negb_Equal (pn n : types.PrincipalName) :
  negb (types.Equal pn n) = bool_decide (pn ≠ n).
Proof. unfold types.Equal. repeat case_bool_decide; simpl; congruence. Qed.

(** The code, read as a decision and a final world, is the TicketValidator
    of the specification at a maximum skew of five minutes. *)
Lemma validateAPREQ_refines (a : types.Authenticator) (APReq : messages.APReq)
    (w : World) :
  let res := validateAPREQ wall a APReq w in
  (decision res.1, res.2)
  = (Some (TicketValidator wall max_skew a APReq w).1,
     (TicketValidator wall max_skew a APReq w).2).
Proof.
  unfold validateAPREQ, TicketValidator, GetReplayCache, IsReplay.
  rewrite negb_Equal. fold (ticket_part APReq). fold (principal_mismatch a APReq).
  destruct (principal_mismatch a APReq); [reflexivity |].
  cbn [Now]. rewrite mul_5_Minute.
  fold (authenticator_time a). rewrite skew_test.
  destruct (skew_exceeded max_skew a (wall (ticks w))); [reflexivity |].
  destruct (CheckAndRecord _ _ _ _) as [[] w'] ; [reflexivity |].
  rewrite !gt_Sub_skew. fold (ticket_part APReq).
  fold (not_yet_valid max_skew APReq (wall (ticks w))).
  destruct (not_yet_valid _ _ _); [reflexivity |].
  fold (expired max_skew APReq (wall (ticks w))).
  destruct (expired _ _ _); reflexivity.
Qed.

(** C1: [validateAPREQ] applies five checks in the order principal match,
    clock skew, replay, not-yet-valid, expired; its decision is the reason
    of the first check that fails (BadMatch, ClockSkew, Replay, NotYetValid,
    Expired) and acceptance only when none fails.  Later checks are not
    run: the clock is read and the replay cache consulted only when the
    checks before them passed. *)
Theorem validateAPREQ_ordered_checks (a : types.Authenticator)
    (APReq : messages.APReq) (w : World) :
  let now := wall (ticks w) in
  let replay_check :=
    IsReplay wall max_skew (messages.SName (messages.Ticket_ APReq)) a (Now wall w).2 in
  let res := validateAPREQ wall a APReq w in
  decision res.1
  = Some (first_failure
      [ (BadMatch, principal_mismatch a APReq);
        (ClockSkew, skew_exceeded max_skew a now);
        (Replay, replay_check.1);
        (NotYetValid, not_yet_valid max_skew APReq now);
        (Expired, expired max_skew APReq now) ])
  /\ res.2
     = if principal_mismatch a APReq then w
       else if skew_exceeded max_skew a now then (Now wall w).2
       else replay_check.2.
Proof.
  cbv zeta.
  pose proof (validateAPREQ_refines a APReq w) as Href. cbv zeta in Href.
  injection Href as Hd Hw. rewrite Hd, Hw. clear Hd Hw.
  unfold TicketValidator, IsReplay, first_failure. cbn [Now snd].
  destruct (principal_mismatch a APReq); [split; reflexivity |].
  destruct (skew_exceeded _ _ _); [split; reflexivity |].
  destruct (CheckAndRecord _ _ _ _) as [[] w']; [split; reflexivity |].
  destruct (not_yet_valid _ _ _); [split; reflexivity |].
  destruct (expired _ _ _); split; reflexivity.
Qed.

(** C4: when the authenticator's client principal differs from the
    ticket's, [validateAPREQ] rejects with BadMatch and leaves the whole
    process state as it found it: the replay cache is neither queried nor
    changed (and the clock is not even read), so no later call can observe
    the rejection. *)
Theorem validateAPREQ_badmatch_leaves_cache (a : types.Authenticator)
    (APReq : messages.APReq) (w : World) :
  types.CName a ≠ messages.CName (ticket_part APReq) ->
  validateAPREQ wall a APReq w
  = (false,
     Some (messages.mkKRBError
             (messages.SName (messages.Ticket_ APReq))
             (messages.Realm (messages.Ticket_ APReq))
             errorcode.KRB_AP_ERR_BADMATCH
             "CName in Authenticator does not match that in service ticket"),
     w).
Proof.
  intros Hne. unfold validateAPREQ.
  rewrite negb_Equal. fold (ticket_part APReq).
  rewrite bool_decide_eq_true_2 by exact Hne. reflexivity.
Qed.

(** C5, amended: the authenticator time is the timestamp plus the
    microsecond offset (exactly so whenever the offset, in nanoseconds, fits
    a 64-bit duration); when the principal-match check passes and the
    distance between the one clock reading of the call and that time
    exceeds five minutes, [validateAPREQ] rejects with ClockSkew whatever
    the remaining fields are, having read the clock exactly once and not
    touched the replay cache. *)
Theorem validateAPREQ_clock_skew (a : types.Authenticator)
    (APReq : messages.APReq) (w : World) :
  types.CName a = messages.CName (ticket_part APReq) ->
  time.minDuration <= types.Cusec a * 1000 <= time.maxDuration ->
  5 * 60 * 10 ^ 9 < Z.abs (wall (ticks w) - (types.CTime a + types.Cusec a * 1000)) ->
  validateAPREQ wall a APReq w
  = (false,
     Some (messages.mkKRBError
             (messages.SName (messages.Ticket_ APReq))
             (messages.Realm (messages.Ticket_ APReq))
             errorcode.KRB_AP_ERR_SKEW skew_etext),
     mkWorld (S (ticks w)) (replayCache w)).
Proof.
  intros Heq Hfit Hskew. unfold validateAPREQ.
  rewrite negb_Equal. fold (ticket_part APReq).
  rewrite bool_decide_eq_false_2 by (intros Hne; exact (Hne Heq)).
  cbn [Now]. rewrite mul_5_Minute. fold (authenticator_time a).
  rewrite skew_test. unfold skew_exceeded.
  rewrite (authenticator_time_exact a Hfit).
  rewrite bool_decide_eq_true_2 by exact Hskew. reflexivity.
Qed.

(** C8, amended: the maximum skew is the constant five minutes of the code,
    not a configuration parameter; on every call that one duration is the
    clock-skew bound and the window handed to the replay cache (and the
    tolerance of the two ticket-lifetime checks): the code decides, and
    leaves the process state, exactly as the specification's
    TicketValidator does for [d] = 5 minutes. *)
Theorem validateAPREQ_five_minutes (a : types.Authenticator)
    (APReq : messages.APReq) (w : World) :
  decision (validateAPREQ wall a APReq w).1
  = Some (TicketValidator wall (5 * time.Minute) a APReq w).1
  /\ (validateAPREQ wall a APReq w).2
     = (TicketValidator wall (5 * time.Minute) a APReq w).2.
Proof.
  pose proof (validateAPREQ_refines a APReq w) as Href. cbv zeta in Href.
  injection Href as Hd Hw. split; assumption.
Qed.

(** A fingerprint the cache holds, recorded inside the window, is reported
    as a replay. *)
Lemma CheckAndRecord_replay (window : time.Duration) (fp : Fingerprint)
    (T : time.Time) (w : World) :
  mkCacheEntry fp T ∈ replayCache w ->
  wall (ticks w) - window <= T ->
  (CheckAndRecord wall window fp w).1 = true.
Proof.
  intros Hin Hwin. unfold CheckAndRecord. cbn [Now replayCache ticks].
  assert (seen fp (evict (wall (ticks w)) window (replayCache w)) = true) as ->.
  { unfold seen, evict. apply bool_decide_eq_true_2.
    apply (list_elem_of_fmap_2' entry_fp _ (mkCacheEntry fp T)); [| reflexivity].
    apply list_elem_of_filter. split; [exact Hwin | exact Hin]. }
  reflexivity.
Qed.

(** A fingerprint reported fresh is in the cache afterwards, stamped with
    the cache's clock reading. *)
Lemma CheckAndRecord_fresh (window : time.Duration) (fp : Fingerprint)
    (w : World) :
  (CheckAndRecord wall window fp w).1 = false ->
  mkCacheEntry fp (wall (ticks w)) ∈ replayCache (CheckAndRecord wall window fp w).2.
Proof.
  unfold CheckAndRecord. cbn [Now replayCache ticks].
  destruct (seen fp _); [discriminate |].
  intros _. cbn [snd replayCache]. apply list_elem_of_here.
Qed.

(** C9, amended: a presentation that passes the principal-match, clock-skew
    and replay checks and is then rejected as NotYetValid or Expired has
    already had its fingerprint recorded by the replay check; the same
    presentation made again while the cache still holds that record, inside
    the window, and with the authenticator time still within the skew bound
    of the later clock reading, is rejected with Replay. *)
Theorem rejected_late_is_recorded (a : types.Authenticator)
    (APReq : messages.APReq) (w : World) :
  let first := validateAPREQ wall a APReq w in
  let record :=
    mkCacheEntry (fingerprint (messages.SName (messages.Ticket_ APReq)) a)
      (wall (S (ticks w))) in
  decision first.1 = Some (Rejected NotYetValid)
  \/ decision first.1 = Some (Rejected Expired) ->
  record ∈ replayCache first.2
  /\ forall w2 : World,
       record ∈ replayCache w2 ->
       wall (S (ticks w2)) - max_skew <= inserted record ->
       skew_exceeded max_skew a (wall (ticks w2)) = false ->
       decision (validateAPREQ wall a APReq w2).1 = Some (Rejected Replay).
Proof.
  cbv zeta. intros Hlate.
  pose proof (validateAPREQ_refines a APReq w) as Href. cbv zeta in Href.
  injection Href as Hd Hw. rewrite Hd in Hlate. rewrite Hw. clear Hd Hw.
  unfold TicketValidator in *. cbn [Now] in *.
  destruct (principal_mismatch a APReq) eqn:Hpm;
    [destruct Hlate; discriminate |].
  destruct (skew_exceeded max_skew a (wall (ticks w)));
    [destruct Hlate; discriminate |].
  pose proof (CheckAndRecord_fresh max_skew
    (fingerprint (messages.SName (messages.Ticket_ APReq)) a)
    (mkWorld (S (ticks w)) (replayCache w))) as Hrec.
  destruct (CheckAndRecord _ _ _ _) as [[] w1];
    [destruct Hlate; discriminate |].
  specialize (Hrec eq_refl). cbn [snd ticks] in Hrec.
  split.
  { destruct (not_yet_valid _ _ _); [exact Hrec |].
    destruct (expired _ _ _); exact Hrec. }
  intros w2 Hin Hwin Hskew.
  pose proof (validateAPREQ_refines a APReq w2) as Href. cbv zeta in Href.
  injection Href as Hd _. rewrite Hd. unfold TicketValidator.
  rewrite Hpm. cbn [Now]. rewrite Hskew.
  pose proof (CheckAndRecord_replay max_skew _ _
    (mkWorld (S (ticks w2)) (replayCache w2)) Hin Hwin) as Hrep.
  destruct (CheckAndRecord _ _ _ _) as [rep w3]. cbn [fst] in Hrep.
  rewrite Hrep. reflexivity.
Qed.

End Validation.

(** * Splitting the Authorization header *)

Lemma strip_Some (p s rest : string) :
  strings.strip p s = Some rest <-> s = p +:+ rest.
Proof.
  revert s. induction p as [| c p IH]; intros s.
  - change (EmptyString +:+ rest) with rest. simpl. split; congruence.
  - change (String c p +:+ rest) with (String c (p +:+ rest)). simpl.
    destruct s as [| c' s]; [split; discriminate |].
    destruct (Ascii.eqb_spec c c') as [-> | Hne].
    + rewrite IH. split; congruence.
    + split; [discriminate | congruence].
Qed.

Lemma cut_Some (sep s before after : string) :
  strings.cut sep s = Some (before, after) -> s = before +:+ sep +:+ after.
Proof.
  revert before. induction s as [| c s IH]; intros before; simpl.
  - destruct (strings.strip sep EmptyString) as [rest |] eqn:Hs; [| discriminate].
    intros [= <- <-]. apply strip_Some in Hs. exact Hs.
  - destruct (strings.strip sep (String c s)) as [rest |] eqn:Hs.
    + intros [= <- <-]. apply strip_Some in Hs. exact Hs.
    + destruct (strings.cut sep s) as [[b a] |]; [| discriminate].
      intros [= <- <-].
      change (String c b +:+ sep +:+ a) with (String c (b +:+ sep +:+ a)).
      f_equal. apply IH. reflexivity.
Qed.

(** A value made of the scheme, one space and a token splits into the two. *)
Lemma SplitN_Negotiate (tok : string) :
  strings.SplitN ("Negotiate " +:+ tok) " " 2 = ["Negotiate"; tok].
Proof. reflexivity. Qed.

(** Any other value sends the challenge. *)
Lemma lacks_credential_other (hdr : string) :
  (forall tok, hdr ≠ "Negotiate " +:+ tok) ->
  lacks_credential (strings.SplitN hdr " " 2) = true.
Proof.
  intros Hno. unfold lacks_credential. cbn [strings.SplitN].
  destruct (strings.cut " " hdr) as [[before after] |] eqn:Hcut; [| reflexivity].
  cbn [length Nat.eqb negb orb nth].
  destruct (String.eqb_spec before "Negotiate") as [-> | Hne]; [| reflexivity].
  apply cut_Some in Hcut. destruct (Hno after). exact Hcut.
Qed.

(** A missing header reads as the empty string, which is no credential. *)
Lemma Get_missing (h : http.Header) (key : string) :
  h !! key = None -> http.Get h key = EmptyString.
Proof. unfold http.Get. intros ->. reflexivity. Qed.

(** * The handler *)

Section HandlerProperties.

Variable wall : nat -> time.Time.
Context {Keytab : Type}.
Variable ext : Externals Keytab.
Variable f : http.ResponseWriter -> http.Request -> http.ResponseWriter.
Variable ktab : Keytab.


(** Enter the handler on a request that carries a [Negotiate] credential. *)
Ltac with_credential Hhdr :=
  unfold SPNEGOKRB5Authenticate; cbv zeta;
  rewrite Hhdr, SplitN_Negotiate;
  change (negb (length ["Negotiate"; _] =? 2)%nat || _) with false;
  cbv iota; cbn [nth].

(** Walk the handler up to its look at [MechTypes], on a credential that
    decodes to a NegTokenInit. *)
Ltac at_mechanism_check Hhdr Hb64 Hneg :=
  with_credential Hhdr; rewrite Hb64, Hneg;
  rewrite bool_decide_eq_false_2 by (let H := fresh in intros H; exact (H eq_refl));
  cbn [negb orb].

(** C7, amended: a request whose Authorization header is missing, or is not
    the scheme [Negotiate] followed by a space and a token, where a token is
    whatever text comes after that first space, the empty text included, is
    answered with
    status 401, the header [WWW-Authenticate: Negotiate] without a token and
    the body [Unauthorised.] and a line feed; nothing is handed to the
    downstream handler, nothing is logged and the process state is
    untouched. *)
Theorem challenge_without_credential (r : http.Request) (ws : World)
    (lg : option (list string)) (h : http.Header) (fw : list http.Request) :
  http.Header_ r !! "Authorization" = None
  \/ (forall tok, http.Get (http.Header_ r) "Authorization" ≠ "Negotiate " +:+ tok) ->
  SPNEGOKRB5Authenticate wall ext f ktab r (mkConn ws lg (http.fresh h) fw)
  = Returned
      (mkConn ws lg
         (http.mkResponseWriter (<["WWW-Authenticate" := ["Negotiate"]]> h)
            (Some 401) ("Unauthorised." +:+ newline))
         fw).
Proof.
  intros Hno.
  assert (forall tok, http.Get (http.Header_ r) "Authorization" ≠ "Negotiate " +:+ tok)
    as Hother.
  { destruct Hno as [Hmiss | Hother]; [| exact Hother].
    intros tok. rewrite (Get_missing _ _ Hmiss). discriminate. }
  unfold SPNEGOKRB5Authenticate. cbv zeta.
  change (negb (length ?s =? 2)%nat || negb (String.eqb (nth 0 ?s EmptyString) "Negotiate"))
    with (lacks_credential s).
  rewrite (lacks_credential_other _ Hother). reflexivity.
Qed.


(** C6: when the credential decodes to a Kerberos AP-REQ, ticket and
    authenticator decrypt, and [validateAPREQ] accepts, the handler binds
    the client principal name, the client realm and the flag
    [authenticated = true] in the request's context, sets the response
    header [WWW-Authenticate] to the fixed accept-completed token, and calls
    the downstream handler with that writer and the enriched request. *)
Theorem accept_forwards_identity (r : http.Request) (c : Conn)
    (tok : string) (b : list Byte.byte) (nInit : GSSAPI.NegTokenInit)
    (rest : list GSSAPI.ObjectIdentifier) (mt : GSSAPI.MechToken)
    (tkt : messages.Ticket) (ab : list Byte.byte) (a : types.Authenticator) :
  let APReq := messages.mkAPReq tkt (messages.Authenticator (GSSAPI.APReq mt)) in
  let validated := validateAPREQ wall a APReq (world c) in
  let r' :=
    http.WithContext r
      (("authenticated", http.VBool true)
       :: ("crealm", http.VString (types.CRealm a))
       :: ("cname", http.VString (types.GetPrincipalNameString (types.CName a)))
       :: http.ctx_ r) in
  http.Get (http.Header_ r) "Authorization" = "Negotiate " +:+ tok ->
  DecodeString ext tok = inl b ->
  UnmarshalNegToken ext b = (true, GSSAPI.Init nInit, None) ->
  GSSAPI.MechTypes nInit = MechTypeOID_Krb5 ext :: rest ->
  MechToken_Unmarshal ext (GSSAPI.MechToken_ nInit) = inl mt ->
  IsAPReq ext mt = true ->
  Ticket_DecryptEncPart ext (messages.Ticket_ (GSSAPI.APReq mt)) ktab = inl tkt ->
  DecryptEncPart ext (messages.Authenticator (GSSAPI.APReq mt))
    (messages.Key (messages.DecryptedEncPart tkt)) (AP_REQ_AUTHENTICATOR ext)
  = inl ab ->
  Authenticator_Unmarshal ext ab = inl a ->
  validated.1.1 = true ->
  SPNEGOKRB5Authenticate wall ext f ktab r c
  = Returned
      (mkConn validated.2 (l c)
         (f (http.SetHeader (w c) "WWW-Authenticate"
               "Negotiate oRQwEqADCgEAoQsGCSqGSIb3EgECAg==") r')
         (forwarded c ++ [r']))
  /\ http.Value_ (http.ctx_ r') "cname"
     = Some (http.VString (types.GetPrincipalNameString (types.CName a)))
  /\ http.Value_ (http.ctx_ r') "crealm" = Some (http.VString (types.CRealm a))
  /\ http.Value_ (http.ctx_ r') "authenticated" = Some (http.VBool true).
Proof.
  cbv zeta. intros Hhdr Hb64 Hneg Hmech Hmt Hap Htkt Hauth Ha Hok.
  split; [| repeat split].
  at_mechanism_check Hhdr Hb64 Hneg. rewrite Hmech.
  unfold GSSAPI.Equal. rewrite bool_decide_eq_true_2 by reflexivity.
  cbn [negb]. rewrite Hmt, Hap. cbn [negb]. rewrite Htkt.
  cbn [messages.Authenticator]. rewrite Hauth, Ha.
  destruct (validateAPREQ _ _ _ _) as [[ok err] world'].
  cbn [fst snd] in Hok |- *. rewrite Hok. reflexivity.
Qed.

(** C10: the handler reads [MechTypes[0]] of the decoded NegTokenInit
    without looking at the length of the list.  With an empty list the
    handler panics on the index, sending no reject response; the mechanism
    check has an outcome exactly when the list is not empty: a first
    mechanism other than Kerberos 5 is rejected, and the handler returns. *)
Theorem mechtypes_indexed_unchecked (r : http.Request) (c : Conn)
    (tok : string) (b : list Byte.byte) (nInit : GSSAPI.NegTokenInit) :
  http.Get (http.Header_ r) "Authorization" = "Negotiate " +:+ tok ->
  DecodeString ext tok = inl b ->
  UnmarshalNegToken ext b = (true, GSSAPI.Init nInit, None) ->
  (GSSAPI.MechTypes nInit = [] ->
   SPNEGOKRB5Authenticate wall ext f ktab r c
   = Panicked (IndexOutOfRange 0 0) c)
  /\ (forall mech0 rest,
        GSSAPI.MechTypes nInit = mech0 :: rest ->
        mech0 ≠ MechTypeOID_Krb5 ext ->
        SPNEGOKRB5Authenticate wall ext f ktab r c
        = Returned (rejectSPNEGO c (msg_oid r)))
  /\ (GSSAPI.MechTypes nInit ≠ [] ->
      exists c', SPNEGOKRB5Authenticate wall ext f ktab r c = Returned c').
Proof.
  intros Hhdr Hb64 Hneg.
  split; [| split].
  - intros Hnil. at_mechanism_check Hhdr Hb64 Hneg.
    rewrite Hnil. reflexivity.
  - intros mech0 rest Hcons Hne. at_mechanism_check Hhdr Hb64 Hneg.
    rewrite Hcons. unfold GSSAPI.Equal.
    rewrite bool_decide_eq_false_2 by exact Hne. reflexivity.
  - intros Hne. at_mechanism_check Hhdr Hb64 Hneg.
    destruct (GSSAPI.MechTypes nInit) as [| mech0 rest]; [congruence |].
    repeat
      match goal with
      | |- exists c', Returned ?c = Returned c' => exists c; reflexivity
      | |- context [match ?x with inl _ => _ | inr _ => _ end] => destruct x
      | |- context [let (_, _) := ?x in _] => destruct x
      | |- context [if ?b then _ else _] => destruct b
      end.
Qed.

End HandlerProperties.

(** * The properties at concrete inputs *)

Section Concrete.

Import Scenario.

(** One run of [validateAPREQ] per outcome, on the freshly started process
    with the clock at two minutes unless said otherwise. *)
Example validate_accepted :
  decision (validateAPREQ (readings [2 * minute]) a ap boot).1 = Some Accepted.
Proof. reflexivity. Qed.

Example validate_badmatch :
  decision (validateAPREQ (readings [2 * minute])
              (authenticator_of mallory 0) ap boot).1
  = Some (Rejected BadMatch).
Proof. reflexivity. Qed.

Example validate_clockskew :
  decision (validateAPREQ (readings [6 * minute]) a ap boot).1
  = Some (Rejected ClockSkew).
Proof. reflexivity. Qed.

Example validate_replay :
  let once := validateAPREQ (readings [2 * minute]) a ap boot in
  decision once.1 = Some Accepted
  /\ decision (validateAPREQ (readings [2 * minute]) a ap once.2).1
     = Some (Rejected Replay).
Proof. split; reflexivity. Qed.

Example validate_notyetvalid :
  decision (validateAPREQ (readings [2 * minute]) a
              (apreq_for alice [] (30 * minute) (60 * minute)) boot).1
  = Some (Rejected NotYetValid)
  /\ decision (validateAPREQ (readings [2 * minute]) a
                 (apreq_for alice
                    [false; false; false; false; false; false; false; true]
                    0 (60 * minute)) boot).1
     = Some (Rejected NotYetValid).
Proof. split; reflexivity. Qed.

Example validate_expired :
  decision (validateAPREQ (readings [2 * minute]) a
              (apreq_for alice [] (- 60 * minute) (- 10 * minute)) boot).1
  = Some (Rejected Expired).
Proof. reflexivity. Qed.

(** An entry is evicted once the window has passed: a new authenticator
    presented eleven minutes after the first finds the old record gone. *)
Example cache_evicts :
  let once := validateAPREQ (readings [2 * minute]) a ap boot in
  replayCache
    (validateAPREQ (readings [0; 0; 13 * minute]) (authenticator_of alice (13 * minute))
       ap once.2).2
  = [ mkCacheEntry (fingerprint http_service (authenticator_of alice (13 * minute)))
        (13 * minute) ].
Proof. reflexivity. Qed.

(** A microsecond offset too large for its nanosecond count to fit 64 bits
    is not added exactly. *)
Example authenticator_time_wraps :
  authenticator_time (types.mkAuthenticator realm alice (2 ^ 62) 0) = 0.
Proof. reflexivity. Qed.

(** C4 at a concrete input: Mallory's authenticator with Alice's ticket. *)
Lemma validateAPREQ_badmatch_leaves_cache_witness :
  validateAPREQ (readings [2 * minute]) (authenticator_of mallory 0) ap boot
  = (false,
     Some (messages.mkKRBError http_service realm errorcode.KRB_AP_ERR_BADMATCH
             "CName in Authenticator does not match that in service ticket"),
     boot).
Proof.
  apply (validateAPREQ_badmatch_leaves_cache (readings [2 * minute])
           (authenticator_of mallory 0) ap boot).
  vm_compute. discriminate.
Defined.

(** C5 as stated fails: Mallory's authenticator, ten minutes stale, with
    Alice's ticket is past the skew bound, yet the rejection is BadMatch:
    the principal check comes first. *)
Lemma clock_skew_regardless_counterexample :
  skew_exceeded max_skew (authenticator_of mallory 0)
    (readings [10 * minute] (ticks boot)) = true
  /\ decision (validateAPREQ (readings [10 * minute])
                (authenticator_of mallory 0) ap boot).1
     = Some (Rejected BadMatch).
Proof. split; reflexivity. Qed.

(** C5, amended, at a concrete input: Alice's authenticator stamped half a
    second after time 0, presented ten minutes later. *)
Lemma validateAPREQ_clock_skew_witness :
  validateAPREQ (readings [10 * minute])
    (types.mkAuthenticator realm alice 500000 0) ap boot
  = (false,
     Some (messages.mkKRBError http_service realm errorcode.KRB_AP_ERR_SKEW
             skew_etext),
     mkWorld 1 []).
Proof.
  apply (validateAPREQ_clock_skew (readings [10 * minute])
           (types.mkAuthenticator realm alice 500000 0) ap boot).
  - reflexivity.
  - vm_compute. split; discriminate.
  - vm_compute. reflexivity.
Defined.

(** C8 as stated fails: were the maximum skew configurable, a configured
    ten minutes would accept an authenticator six minutes old; the code
    rejects it, holding to its own five minutes. *)
Lemma configured_skew_counterexample :
  (TicketValidator (readings [6 * minute]) (10 * time.Minute) a ap boot).1 = Accepted
  /\ decision (validateAPREQ (readings [6 * minute]) a ap boot).1
     = Some (Rejected ClockSkew).
Proof. split; reflexivity. Qed.

(** C9 as stated fails: presented four minutes after its authenticator
    time, the expired ticket is rejected as Expired and its fingerprint
    recorded; presented again three minutes later (inside the window of the
    record), it is rejected with ClockSkew, not Replay. *)
Lemma replay_after_late_rejection_counterexample :
  let wall := readings [4 * minute; 4 * minute; 7 * minute; 7 * minute] in
  let first := validateAPREQ wall a stale boot in
  decision first.1 = Some (Rejected Expired)
  /\ replayCache first.2 = [mkCacheEntry (fingerprint http_service a) (4 * minute)]
  /\ wall (S (ticks first.2)) - max_skew <= 4 * minute
  /\ decision (validateAPREQ wall a stale first.2).1 = Some (Rejected ClockSkew).
Proof. cbv zeta. repeat split. vm_compute. discriminate. Qed.

(** C9, amended, at a concrete input: the expired ticket presented four
    minutes after its authenticator time and again half a minute later. *)
Lemma rejected_late_is_recorded_witness :
  let wall := readings [4 * minute; 4 * minute; 4 * minute + 30 * 10 ^ 9] in
  let first := validateAPREQ wall a stale boot in
  decision first.1 = Some (Rejected Expired)
  /\ decision (validateAPREQ wall a stale first.2).1 = Some (Rejected Replay).
Proof.
  cbv zeta. split; [reflexivity |].
  refine (proj2 (rejected_late_is_recorded
            (readings [4 * minute; 4 * minute; 4 * minute + 30 * 10 ^ 9])
            a stale boot _) _ _ _ _).
  - right. reflexivity.
  - vm_compute. apply list_elem_of_here.
  - vm_compute. discriminate.
  - reflexivity.
Defined.

(** C7 as stated fails: the header value [Negotiate] followed by one space
    carries no token, yet the handler takes the empty text after the space
    for one, decodes it and answers with the reject token where the claim
    has the bare challenge. *)
Lemma challenge_on_empty_token_counterexample :
  (forall tok : string,
     tok ≠ EmptyString ->
     http.Get (http.Header_ (request_with ["Negotiate "])) "Authorization"
     ≠ "Negotiate " +:+ tok)
  /\ SPNEGOKRB5Authenticate (readings [2 * minute]) empty_handed hello tt
       (request_with ["Negotiate "]) connection
     = Returned
         (mkConn boot
            (Some ["192.0.2.7:40000 - SPNEGO negotiation token is not a NegTokenInit: asn1: syntax error: sequence truncated"])
            (http.mkResponseWriter
               {[ "WWW-Authenticate" := ["Negotiate oQcwBaADCgEC"] ]}
               (Some 401) ("Unauthorised." +:+ newline))
            []).
Proof.
  split; [| reflexivity].
  intros tok Hne Heq.
  change (http.Get (http.Header_ (request_with ["Negotiate "])) "Authorization")
    with ("Negotiate " +:+ EmptyString) in Heq.
  apply strip_Some in Heq.
  change (strings.strip "Negotiate " ("Negotiate " +:+ EmptyString))
    with (Some EmptyString) in Heq.
  congruence.
Qed.

(** C7 at a concrete input: a request with no Authorization header. *)
Lemma challenge_without_credential_witness :
  SPNEGOKRB5Authenticate (readings [2 * minute]) (scripted [krb5_oid] ap a)
    hello tt bare_request connection
  = Returned
      (mkConn boot (Some [])
         (http.mkResponseWriter {[ "WWW-Authenticate" := ["Negotiate"] ]}
            (Some 401) ("Unauthorised." +:+ newline))
         []).
Proof.
  apply (challenge_without_credential (readings [2 * minute])
           (scripted [krb5_oid] ap a) hello tt bare_request boot (Some []) ∅ []).
  left. reflexivity.
Defined.


(** C6 at a concrete input: the same credential presented two minutes
    after its authenticator time. *)
Lemma accept_forwards_identity_witness :
  let r' :=
    http.WithContext (request_with ["Negotiate YWJj"])
      [ ("authenticated", http.VBool true);
        ("crealm", http.VString "EXAMPLE.COM");
        ("cname", http.VString "alice") ] in
  SPNEGOKRB5Authenticate (readings [2 * minute]) (scripted [krb5_oid] ap a)
    hello tt (request_with ["Negotiate YWJj"]) connection
  = Returned
      (mkConn (mkWorld 2 [mkCacheEntry (fingerprint http_service a) (2 * minute)])
         (Some [])
         (http.mkResponseWriter
            {[ "WWW-Authenticate" := ["Negotiate oRQwEqADCgEAoQsGCSqGSIb3EgECAg=="] ]}
            (Some 200) "hello")
         [r']).
Proof.
  cbv zeta.
  refine (proj1 (accept_forwards_identity (readings [2 * minute])
            (scripted [krb5_oid] ap a) hello tt
            (request_with ["Negotiate YWJj"]) connection
            "YWJj" [] (GSSAPI.mkNegTokenInit [krb5_oid] []) []
            (GSSAPI.mkMechToken [] ap) (messages.Ticket_ ap) [] a
            _ _ _ _ _ _ _ _ _ _));
    reflexivity.
Defined.

(** C10 at a concrete input: a NegTokenInit that offers no mechanism. *)
Lemma mechtypes_indexed_unchecked_witness :
  SPNEGOKRB5Authenticate (readings [2 * minute]) (scripted [] ap a)
    hello tt (request_with ["Negotiate YWJj"]) connection
  = Panicked (IndexOutOfRange 0 0) connection.
Proof.
  refine (proj1 (mechtypes_indexed_unchecked (readings [2 * minute])
            (scripted [] ap a) hello tt (request_with ["Negotiate YWJj"])
            connection "YWJj" [] (GSSAPI.mkNegTokenInit [] []) _ _ _) _);
    reflexivity.
Defined.

End Concrete.

(** * Further properties of the validation *)

Section ValidationMore.

Variable wall : nat -> time.Time.

(** The decision of the code is that of the TicketValidator at five minutes. *)
Lemma decision_validateAPREQ (a : types.Authenticator) (APReq : messages.APReq)
    (w : World) :
  decision (validateAPREQ wall a APReq w).1
  = Some (TicketValidator wall max_skew a APReq w).1.
Proof.
  pose proof (validateAPREQ_refines wall a APReq w) as Href. cbv zeta in Href.
  injection Href as Hd _. exact Hd.
Qed.

(** The Go result is [(true, nil)] or [(false, err)], and an error is built
    from the ticket's service name and realm. *)
Lemma validateAPREQ_shape (a : types.Authenticator) (APReq : messages.APReq)
    (w : World) :
  let res := validateAPREQ wall a APReq w in
  (res.1.1 = true /\ res.1.2 = None)
  \/ (res.1.1 = false
      /\ exists code text,
           res.1.2 = Some (messages.mkKRBError
                             (messages.SName (messages.Ticket_ APReq))
                             (messages.Realm (messages.Ticket_ APReq)) code text)).
Proof.
  cbv zeta. unfold validateAPREQ, GetReplayCache. cbn [Now].
  repeat
    match goal with
    | |- context [let (_, _) := ?x in _] => destruct x
    | |- context [if ?b then _ else _] => destruct b
    end;
    cbn [fst snd];
    first [left; split; reflexivity | right; split; [reflexivity | eauto]].
Qed.

(** Acceptance by the code is acceptance by the TicketValidator. *)
Lemma validateAPREQ_ok_iff (a : types.Authenticator) (APReq : messages.APReq)
    (w : World) :
  (validateAPREQ wall a APReq w).1.1 = true
  <-> (TicketValidator wall max_skew a APReq w).1 = Accepted.
Proof.
  pose proof (decision_validateAPREQ a APReq w) as Hd.
  pose proof (validateAPREQ_shape a APReq w) as Hs. cbv zeta in Hs.
  destruct (validateAPREQ wall a APReq w) as [[ok err] w'].
  cbn [fst snd] in *.
  destruct Hs as [[-> ->] | [-> (code & text & ->)]]; cbn [decision] in Hd.
  - split; congruence.
  - split; [discriminate | congruence].
Qed.

(** The principals match when the mismatch test is negative. *)
Lemma principal_mismatch_false (a : types.Authenticator) (APReq : messages.APReq) :
  principal_mismatch a APReq = false
  <-> types.CName a = messages.CName (ticket_part APReq).
Proof.
  unfold principal_mismatch. rewrite bool_decide_eq_false. split.
  - apply dec_stable.
  - intros Heq Hne. exact (Hne Heq).
Qed.

(** X1: [validateAPREQ] returns [true] exactly when the client principal of
    the authenticator is the ticket's, the clock reading of the call lies
    within five minutes of the authenticator time (both ends included), the
    replay check reports the presentation fresh, the reading lies between
    five minutes before the ticket's start and five minutes after its end
    (both ends included), and the ticket's invalid flag is unset. *)
Theorem validateAPREQ_accepts_iff (a : types.Authenticator)
    (APReq : messages.APReq) (w : World) :
  let now := wall (ticks w) in
  let tkt := ticket_part APReq in
  (validateAPREQ wall a APReq w).1.1 = true
  <-> types.CName a = messages.CName tkt
      /\ authenticator_time a - 5 * 60 * 10 ^ 9 <= now
         <= authenticator_time a + 5 * 60 * 10 ^ 9
      /\ (IsReplay wall (5 * time.Minute)
            (messages.SName (messages.Ticket_ APReq)) a (Now wall w).2).1 = false
      /\ messages.StartTime tkt - 5 * 60 * 10 ^ 9 <= now
         <= messages.EndTime tkt + 5 * 60 * 10 ^ 9
      /\ types.IsFlagSet (messages.Flags tkt) types.Invalid = false.
Proof.
  cbv zeta. rewrite validateAPREQ_ok_iff.
  unfold TicketValidator, IsReplay. cbn [Now snd].
  change (5 * time.Minute) with max_skew.
  change (5 * 60 * 10 ^ 9) with max_skew.
  rewrite <- principal_mismatch_false.
  destruct (principal_mismatch a APReq);
    [split; [discriminate | intros [? _]; discriminate] |].
  unfold skew_exceeded. case_bool_decide as Hskew;
    [split; [discriminate | intros (_ & ? & _); lia] |].
  destruct (CheckAndRecord wall max_skew _ _) as [[] w']; cbn [fst];
    [split; [discriminate | intros (_ & _ & ? & _); discriminate] |].
  unfold not_yet_valid, expired.
  destruct (types.IsFlagSet _ _);
    [rewrite orb_true_r; split; [discriminate | intros (_ & _ & _ & _ & ?); discriminate] |].
  rewrite orb_false_r.
  case_bool_decide as Hstart;
    [split; [discriminate | intros (_ & _ & _ & ? & _); lia] |].
  case_bool_decide as Hend;
    [split; [discriminate | intros (_ & _ & _ & ? & _); lia] |].
  split; [intros _ | reflexivity].
  repeat split; lia.
Qed.

(** X3: the rejection is ClockSkew exactly when the principals match and
    the clock reading is more than five minutes from the authenticator time,
    on either side and however far: the saturation of [Time.Sub] on instants
    too far apart for a [Duration] never turns a skewed presentation into a
    passing one. *)
Theorem clock_skew_rejection_exact (a : types.Authenticator)
    (APReq : messages.APReq) (w : World) :
  decision (validateAPREQ wall a APReq w).1 = Some (Rejected ClockSkew)
  <-> types.CName a = messages.CName (ticket_part APReq)
      /\ 5 * 60 * 10 ^ 9 < Z.abs (wall (ticks w) - authenticator_time a).
Proof.
  rewrite decision_validateAPREQ.
  unfold TicketValidator. cbn [Now].
  change (5 * 60 * 10 ^ 9) with max_skew.
  rewrite <- principal_mismatch_false.
  destruct (principal_mismatch a APReq);
    [split; [discriminate | intros [? _]; discriminate] |].
  unfold skew_exceeded. case_bool_decide as Hskew.
  - split; [intros _; split; [reflexivity | exact Hskew] | reflexivity].
  - split; [| intros [_ ?]; contradiction].
    destruct (CheckAndRecord _ _ _ _) as [[] w']; [discriminate |].
    destruct (not_yet_valid _ _ _); [discriminate |].
    destruct (expired _ _ _); discriminate.
Qed.

(** X4: the microsecond offset is not checked against its range, and its
    conversion to nanoseconds wraps in 64 bits: two authenticators whose
    offsets differ by a multiple of 2^61 microseconds have the same
    authenticator time. *)
Theorem authenticator_time_offset_wraps (a : types.Authenticator) (k : Z) :
  authenticator_time
    (types.mkAuthenticator (types.CRealm a) (types.CName a)
       (types.Cusec a + k * 2 ^ 61) (types.CTime a))
  = authenticator_time a.
Proof.
  unfold authenticator_time, time.Add, time.mul, time.wrap64,
    time.Microsecond, time.Nanosecond.
  cbn [types.CTime types.Cusec].
  replace ((types.Cusec a + k * 2 ^ 61) * (1000 * 1) + 2 ^ 63)
    with (types.Cusec a * (1000 * 1) + 2 ^ 63 + (125 * k) * 2 ^ 64) by lia.
  rewrite Z.mod_add by lia. reflexivity.
Qed.

End ValidationMore.

(** * Further properties of the header split *)

(** A split with a positive count yields at least one piece. *)
Lemma SplitN_nonempty (s sep : string) (n : nat) :
  strings.SplitN s sep (S n) ≠ [].
Proof.
  destruct n as [| n]; cbn [strings.SplitN]; [discriminate |].
  destruct (strings.cut sep s) as [[before after] |]; discriminate.
Qed.

(** Joining onto a non-empty tail puts the separator in between. *)
Lemma concat_cons (sep x : string) (xs : list string) :
  xs ≠ [] -> String.concat sep (x :: xs) = x +:+ sep +:+ String.concat sep xs.
Proof. destruct xs; [congruence | reflexivity]. Qed.

(** X5: for a non-empty separator and a positive count [n],
    [strings.SplitN] loses nothing: its pieces joined by the separator are
    the string it was given, and there are between one and [n] pieces. *)
Theorem SplitN_join (s sep : string) (n : nat) :
  sep ≠ EmptyString ->
  n ≠ 0%nat ->
  String.concat sep (strings.SplitN s sep n) = s
  /\ (0 < length (strings.SplitN s sep n) <= n)%nat.
Proof.
  intros _ Hn. destruct n as [| n]; [congruence |]. clear Hn.
  revert s. induction n as [| n IH]; intros s.
  - split; [reflexivity | cbn; lia].
  - change (strings.SplitN s sep (S (S n)))
      with (match strings.cut sep s with
            | Some (before, after) => before :: strings.SplitN after sep (S n)
            | None => [s]
            end).
    destruct (strings.cut sep s) as [[before after] |] eqn:Hcut.
    + destruct (IH after) as [Hjoin Hlen].
      rewrite concat_cons by apply SplitN_nonempty.
      rewrite Hjoin. apply cut_Some in Hcut.
      split; [congruence | cbn [length]; lia].
    + split; [reflexivity | cbn; lia].
Qed.

(** What passes the handler's test is the scheme, a space and a token. *)
Lemma lacks_credential_false (hdr : string) :
  lacks_credential (strings.SplitN hdr " " 2) = false ->
  exists tok, hdr = "Negotiate " +:+ tok.
Proof.
  unfold lacks_credential. cbn [strings.SplitN].
  destruct (strings.cut " " hdr) as [[before after] |] eqn:Hcut; [| discriminate].
  cbn [length Nat.eqb negb orb nth].
  destruct (String.eqb_spec before "Negotiate") as [-> | Hne]; [| discriminate].
  intros _. exists after. apply cut_Some in Hcut. exact Hcut.
Qed.

Section HandlerMore.

Variable wall : nat -> time.Time.
Context {Keytab : Type}.
Variable ext : Externals Keytab.
Variable f : http.ResponseWriter -> http.Request -> http.ResponseWriter.
Variable ktab : Keytab.

(** Open the handler and split on its test of the header. *)
Ltac open_handler H Hhdr tok :=
  unfold SPNEGOKRB5Authenticate in H; cbv zeta in H;
  match type of H with
  | context [negb (length ?s =? 2)%nat || negb (String.eqb (nth 0 ?s EmptyString) "Negotiate")] =>
      change (negb (length s =? 2)%nat || negb (String.eqb (nth 0 s EmptyString) "Negotiate"))
        with (lacks_credential s) in H
  end;
  match type of H with
  | context [lacks_credential ?s] =>
      let Hg := fresh "Hg" in
      destruct (lacks_credential s) eqn:Hg;
      [| apply lacks_credential_false in Hg as [tok Hhdr];
         rewrite Hhdr, SplitN_Negotiate in H; cbn [nth] in H]
  end.

(** X6: the downstream handler is reached only through a successful
    validation of the credential the request carries.  Whenever the handler
    returns having handed a request downstream, the Authorization header
    was [Negotiate] and a token; that token base64-decoded to bytes that
    decoded, without error, to an initial NegTokenInit whose first mechanism
    is Kerberos 5; its mechanism token decoded to an AP-REQ; the ticket of
    that AP-REQ decrypted with the keytab; its authenticator decrypted under
    the ticket's session key and decoded; [validateAPREQ] returned [true]
    for the two; and exactly one request was handed over: the incoming one
    with [authenticated], [crealm] and [cname] bound on top of its
    context. *)
Theorem forwarded_only_when_validated (r : http.Request) (c c' : Conn) :
  SPNEGOKRB5Authenticate wall ext f ktab r c = Returned c' ->
  forwarded c' ≠ forwarded c ->
  exists (tok : string) (b : list Byte.byte) (nInit : GSSAPI.NegTokenInit)
         (rest : list GSSAPI.ObjectIdentifier) (mt : GSSAPI.MechToken)
         (tkt : messages.Ticket) (ab : list Byte.byte) (a : types.Authenticator),
    let APReq := messages.mkAPReq tkt (messages.Authenticator (GSSAPI.APReq mt)) in
    http.Get (http.Header_ r) "Authorization" = "Negotiate " +:+ tok
    /\ DecodeString ext tok = inl b
    /\ UnmarshalNegToken ext b = (true, GSSAPI.Init nInit, None)
    /\ GSSAPI.MechTypes nInit = MechTypeOID_Krb5 ext :: rest
    /\ MechToken_Unmarshal ext (GSSAPI.MechToken_ nInit) = inl mt
    /\ IsAPReq ext mt = true
    /\ Ticket_DecryptEncPart ext (messages.Ticket_ (GSSAPI.APReq mt)) ktab = inl tkt
    /\ DecryptEncPart ext (messages.Authenticator (GSSAPI.APReq mt))
         (messages.Key (messages.DecryptedEncPart tkt)) (AP_REQ_AUTHENTICATOR ext)
       = inl ab
    /\ Authenticator_Unmarshal ext ab = inl a
    /\ (validateAPREQ wall a APReq (world c)).1.1 = true
    /\ world c' = (validateAPREQ wall a APReq (world c)).2
    /\ forwarded c'
       = forwarded c
         ++ [http.WithContext r
               (("authenticated", http.VBool true)
                :: ("crealm", http.VString (types.CRealm a))
                :: ("cname", http.VString (types.GetPrincipalNameString (types.CName a)))
                :: http.ctx_ r)].
Proof.
  intros Hret Hfw.
  assert (forall msg, Returned (rejectSPNEGO c msg) = Returned c' -> False) as Hrej.
  { intros msg [= <-]. apply Hfw. reflexivity. }
  open_handler Hret Hhdr tok.
  { injection Hret as <-. destruct Hfw. reflexivity. }
  destruct (DecodeString ext tok) as [b | e] eqn:Hb; [| destruct (Hrej _ Hret)].
  destruct (UnmarshalNegToken ext b) as [[isInit nt] err] eqn:Hneg.
  destruct err as [e |]; [destruct (Hrej _ Hret) |].
  rewrite bool_decide_eq_false_2 in Hret by (intros H; exact (H eq_refl)).
  destruct isInit; [| destruct (Hrej _ Hret)]. cbn [negb orb] in Hret.
  destruct nt as [| nInit |]; [discriminate | | discriminate].
  destruct (GSSAPI.MechTypes nInit) as [| mech0 rest] eqn:Hmech; [discriminate |].
  unfold GSSAPI.Equal in Hret. case_bool_decide as Hoid; [| destruct (Hrej _ Hret)].
  subst mech0. cbn [negb] in Hret.
  destruct (MechToken_Unmarshal ext _) as [mt | e] eqn:Hmt; [| destruct (Hrej _ Hret)].
  destruct (IsAPReq ext mt) eqn:Hap; [| destruct (Hrej _ Hret)]. cbn [negb] in Hret.
  destruct (Ticket_DecryptEncPart ext _ ktab) as [tkt | e] eqn:Htkt;
    [| destruct (Hrej _ Hret)].
  cbn [messages.Authenticator] in Hret.
  destruct (DecryptEncPart ext _ _ _) as [ab | e] eqn:Hab; [| destruct (Hrej _ Hret)].
  destruct (Authenticator_Unmarshal ext ab) as [a | e] eqn:Ha; [| destruct (Hrej _ Hret)].
  exists tok, b, nInit, rest, mt, tkt, ab, a. cbv zeta.
  destruct (validateAPREQ wall a _ (world c)) as [[ok err'] world'].
  destruct ok.
  - injection Hret as <-. cbn [fst snd world forwarded]. repeat split; assumption.
  - injection Hret as <-. destruct Hfw. reflexivity.
Qed.

(** X7: the handler panics in exactly one situation: the credential
    decodes, [UnmarshalNegToken] reports an initial token without error, and
    the token is either not a NegTokenInit (the type assertion fails) or a
    NegTokenInit without mechanisms (the index fails).  The panic comes
    before anything is written, logged or validated. *)
Theorem panics_exactly (r : http.Request) (c c' : Conn) (p : Panic) :
  SPNEGOKRB5Authenticate wall ext f ktab r c = Panicked p c'
  <-> exists (tok : string) (b : list Byte.byte) (nt : GSSAPI.NegToken),
        http.Get (http.Header_ r) "Authorization" = "Negotiate " +:+ tok
        /\ DecodeString ext tok = inl b
        /\ UnmarshalNegToken ext b = (true, nt, None)
        /\ c' = c
        /\ p = match nt with
               | GSSAPI.Init nInit => IndexOutOfRange 0 0
               | _ => InterfaceConversion "GSSAPI.NegTokenInit"
               end
        /\ forall nInit, nt = GSSAPI.Init nInit -> GSSAPI.MechTypes nInit = [].
Proof.
  split.
  - intros Hret. open_handler Hret Hhdr tok; [discriminate |].
    exists tok.
    destruct (DecodeString ext tok) as [b | e] eqn:Hb; [| discriminate].
    exists b.
    destruct (UnmarshalNegToken ext b) as [[isInit nt] err] eqn:Hn.
    exists nt.
    destruct err as [e |]; [discriminate |].
    rewrite bool_decide_eq_false_2 in Hret by (intros H; exact (H eq_refl)).
    destruct isInit; [| discriminate]. cbn [negb orb] in Hret.
    destruct nt as [| nInit |].
    + injection Hret as <- <-. repeat split; try assumption. intros ? [=].
    + destruct (GSSAPI.MechTypes nInit) as [| mech0 rest] eqn:Hmech.
      * injection Hret as <- <-. repeat split; try assumption.
        intros ? [= <-]. exact Hmech.
      * exfalso. revert Hret.
        repeat
          match goal with
          | |- Returned _ = Panicked _ _ -> _ => discriminate
          | |- context [match ?x with inl _ => _ | inr _ => _ end] => destruct x
          | |- context [let (_, _) := ?x in _] => destruct x
          | |- context [if ?b then _ else _] => destruct b
          end.
    + injection Hret as <- <-. repeat split; try assumption. intros ? [=].
  - intros (tok & b & nt & Hhdr & Hb & Hn & -> & -> & Hmech).
    unfold SPNEGOKRB5Authenticate. cbv zeta.
    rewrite Hhdr, SplitN_Negotiate.
    change (negb (length ["Negotiate"; _] =? 2)%nat || _) with false.
    cbv iota. cbn [nth]. rewrite Hb, Hn.
    rewrite bool_decide_eq_false_2 by (intros H; exact (H eq_refl)).
    cbn [negb orb].
    destruct nt as [| nInit |]; [reflexivity | | reflexivity].
    rewrite (Hmech nInit eq_refl). reflexivity.
Qed.

(** How a returning call leaves the logger, by the three ways it can end:
    a challenge, an accepted request, a rejection. *)
Lemma log_by_outcome (r : http.Request) (c c' : Conn) :
  SPNEGOKRB5Authenticate wall ext f ktab r c = Returned c' ->
  ((forall tok, http.Get (http.Header_ r) "Authorization" ≠ "Negotiate " +:+ tok)
   /\ forwarded c' = forwarded c /\ l c' = l c)
  \/ ((exists tok, http.Get (http.Header_ r) "Authorization" = "Negotiate " +:+ tok)
      /\ forwarded c' ≠ forwarded c /\ l c' = l c)
  \/ ((exists tok, http.Get (http.Header_ r) "Authorization" = "Negotiate " +:+ tok)
      /\ forwarded c' = forwarded c
      /\ exists detail : string,
           l c' = (fun lines => lines ++ [http.RemoteAddr r +:+ " - " +:+ detail]) <$> l c).
Proof.
  intros Hret.
  assert (forall (c0 : Conn) (detail : string),
            l c0 = l c -> forwarded c0 = forwarded c ->
            Returned (rejectSPNEGO c0 (http.RemoteAddr r +:+ " - " +:+ detail))
            = Returned c' ->
            forwarded c' = forwarded c
            /\ exists detail : string,
                 l c' = (fun lines => lines ++ [http.RemoteAddr r +:+ " - " +:+ detail]) <$> l c)
    as Hrej.
  { intros c0 detail Hl Hf [= <-]. split; [exact Hf |]. exists detail.
    unfold rejectSPNEGO. cbn [l]. rewrite Hl. destruct (l c); reflexivity. }
  open_handler Hret Hhdr tok.
  { left. injection Hret as <-. cbn [forwarded l]. repeat split.
    intros tok Hhdr.
    match goal with
    | Hg : lacks_credential _ = true |- _ =>
        rewrite Hhdr, SplitN_Negotiate in Hg; discriminate Hg
    end. }
  right.
  assert (exists tok, http.Get (http.Header_ r) "Authorization" = "Negotiate " +:+ tok)
    as Hcred by (exists tok; exact Hhdr).
  unfold msg_failed in Hret. revert Hret.
  repeat
    match goal with
    | |- Returned (rejectSPNEGO ?c0 _) = Returned _ -> _ =>
        intros Hret; right; split; [exact Hcred |];
        exact (Hrej c0 _ eq_refl eq_refl Hret)
    | |- Panicked _ _ = Returned _ -> _ => discriminate
    | |- Returned (mkConn _ _ _ _) = Returned _ -> _ =>
        intros [= <-]; left; split; [exact Hcred |]; split; [| reflexivity];
        cbn [forwarded]; intros Hfw; apply (f_equal length) in Hfw;
        rewrite length_app in Hfw; cbn [length] in Hfw; lia
    | |- context [match ?x with inl _ => _ | inr _ => _ end] => destruct x
    | |- context [let (_, _) := ?x in _] => destruct x
    | |- context [match ?x with GSSAPI.Nil => _ | _ => _ end] => destruct x
    | |- context [match ?x with [] => _ | _ :: _ => _ end] => destruct x
    | |- context [if ?b then _ else _] => destruct b
    end.
Qed.

(** X8: what a returning call does to the logger is fixed by how it ends.  A
    challenge (no [Negotiate] credential) and an accepted request (one
    handed downstream) leave the logger as it was.  A rejection (a
    credential, nothing handed downstream) appends exactly one line, which
    starts with the remote address of the request followed by [ - ]; a nil
    logger stays nil. *)
Theorem rejection_logs_one_line (r : http.Request) (c c' : Conn) :
  SPNEGOKRB5Authenticate wall ext f ktab r c = Returned c' ->
  ((forall tok, http.Get (http.Header_ r) "Authorization" ≠ "Negotiate " +:+ tok) ->
   l c' = l c)
  /\ (forwarded c' ≠ forwarded c -> l c' = l c)
  /\ ((exists tok, http.Get (http.Header_ r) "Authorization" = "Negotiate " +:+ tok) ->
      forwarded c' = forwarded c ->
      exists detail : string,
        l c' = (fun lines => lines ++ [http.RemoteAddr r +:+ " - " +:+ detail]) <$> l c).
Proof.
  intros Hret.
  destruct (log_by_outcome r c c' Hret)
    as [(Hno & Hfw & Hl) | [(Hcred & Hfw & Hl) | (Hcred & Hfw & Hl)]].
  - split; [intros _; exact Hl |]. split; [intros Hne; destruct (Hne Hfw) |].
    intros [tok Hhdr]. destruct (Hno tok Hhdr).
  - split; [intros Hno; destruct Hcred as [tok Hhdr]; destruct (Hno tok Hhdr) |].
    split; [intros _; exact Hl |].
    intros _ Hsame. destruct (Hfw Hsame).
  - split; [intros Hno; destruct Hcred as [tok Hhdr]; destruct (Hno tok Hhdr) |].
    split; [intros Hne; destruct (Hne Hfw) |].
    intros _ _. exact Hl.
Qed.

(** X9: when the credential decodes and decrypts but [validateAPREQ]
    returns [false], the handler rejects: the process state is the one the
    validation left (a fingerprint it recorded stays recorded), the log line
    carries the text of the Kerberos error, the response gets the reject
    token, status 401 and the body, and nothing is handed downstream. *)
Theorem validation_failure_rejects (r : http.Request) (c : Conn)
    (tok : string) (b : list Byte.byte) (nInit : GSSAPI.NegTokenInit)
    (rest : list GSSAPI.ObjectIdentifier) (mt : GSSAPI.MechToken)
    (tkt : messages.Ticket) (ab : list Byte.byte) (a : types.Authenticator) :
  let APReq := messages.mkAPReq tkt (messages.Authenticator (GSSAPI.APReq mt)) in
  let validated := validateAPREQ wall a APReq (world c) in
  http.Get (http.Header_ r) "Authorization" = "Negotiate " +:+ tok ->
  DecodeString ext tok = inl b ->
  UnmarshalNegToken ext b = (true, GSSAPI.Init nInit, None) ->
  GSSAPI.MechTypes nInit = MechTypeOID_Krb5 ext :: rest ->
  MechToken_Unmarshal ext (GSSAPI.MechToken_ nInit) = inl mt ->
  IsAPReq ext mt = true ->
  Ticket_DecryptEncPart ext (messages.Ticket_ (GSSAPI.APReq mt)) ktab = inl tkt ->
  DecryptEncPart ext (messages.Authenticator (GSSAPI.APReq mt))
    (messages.Key (messages.DecryptedEncPart tkt)) (AP_REQ_AUTHENTICATOR ext)
  = inl ab ->
  Authenticator_Unmarshal ext ab = inl a ->
  validated.1.1 = false ->
  exists e : messages.KRBError,
    validated.1.2 = Some e
    /\ SPNEGOKRB5Authenticate wall ext f ktab r c
       = Returned
           (mkConn validated.2
              ((fun lines =>
                  lines ++ [http.RemoteAddr r
                            +:+ " - SPNEGO Kerberos authentication failed: "
                            +:+ KRBError_Error ext e]) <$> l c)
              (http.Write
                 (http.WriteHeader
                    (http.SetHeader (w c) "WWW-Authenticate" "Negotiate oQcwBaADCgEC")
                    401)
                 ("Unauthorised." +:+ newline))
              (forwarded c)).
Proof.
  cbv zeta. intros Hhdr Hb64 Hneg Hmech Hmt Hap Htkt Hauth Ha Hok.
  destruct (validateAPREQ_shape wall a
              (messages.mkAPReq tkt (messages.Authenticator (GSSAPI.APReq mt)))
              (world c)) as [[Hok' _] | [_ (code & text & Herr)]];
    [congruence |].
  eexists. split; [exact Herr |].
  unfold SPNEGOKRB5Authenticate. cbv zeta.
  rewrite Hhdr, SplitN_Negotiate.
  change (negb (length ["Negotiate"; _] =? 2)%nat || _) with false.
  cbv iota. cbn [nth]. rewrite Hb64, Hneg.
  rewrite bool_decide_eq_false_2 by (intros H; exact (H eq_refl)).
  cbn [negb orb]. rewrite Hmech.
  unfold GSSAPI.Equal. rewrite bool_decide_eq_true_2 by reflexivity.
  cbn [negb]. rewrite Hmt, Hap. cbn [negb]. rewrite Htkt.
  cbn [messages.Authenticator]. rewrite Hauth, Ha.
  destruct (validateAPREQ _ _ _ _) as [[ok err] world'].
  cbn [fst snd] in Hok, Herr |- *. rewrite Hok, Herr.
  unfold rejectSPNEGO, msg_failed. cbn [l w world forwarded].
  destruct (l c); reflexivity.
Qed.


(** X11: the downstream handler has no part in a challenge or a rejection:
    a call that returns without handing the request downstream returns the
    same with any other downstream handler in its place. *)
Theorem rejection_ignores_downstream (r : http.Request) (c c' : Conn)
    (f2 : http.ResponseWriter -> http.Request -> http.ResponseWriter) :
  SPNEGOKRB5Authenticate wall ext f ktab r c = Returned c' ->
  forwarded c' = forwarded c ->
  SPNEGOKRB5Authenticate wall ext f2 ktab r c = Returned c'.
Proof.
  intros Hret Hfw. revert Hret.
  unfold SPNEGOKRB5Authenticate. cbv zeta.
  repeat
    match goal with
    | |- Returned (rejectSPNEGO _ _) = Returned _ -> _ => exact (fun H => H)
    | |- Panicked _ _ = Returned _ -> _ => discriminate
    | |- context [match ?x with inl _ => _ | inr _ => _ end] => destruct x
    | |- context [let (_, _) := ?x in _] => destruct x
    | |- context [match ?x with GSSAPI.Nil => _ | _ => _ end] => destruct x
    | |- context [match ?x with [] => _ | _ :: _ => _ end] => destruct x
    | |- context [if ?b then _ else _] => destruct b
    end;
    try exact (fun H => H).
  intros [= <-]. cbn [forwarded] in Hfw.
  apply (f_equal length) in Hfw. rewrite length_app in Hfw.
  cbn [length] in Hfw. lia.
Qed.

End HandlerMore.

(** * The further properties at concrete inputs *)

Section ConcreteMore.

Import Scenario.

(** X5 at a concrete input: a header value with two spaces, split in two. *)
Lemma SplitN_join_witness :
  String.concat " " (strings.SplitN "Negotiate abc def" " " 2) = "Negotiate abc def"
  /\ (0 < length (strings.SplitN "Negotiate abc def" " " 2) <= 2)%nat.
Proof.
  apply (SplitN_join "Negotiate abc def" " " 2); discriminate.
Defined.

(** X6 at a concrete input: Alice's credential presented two minutes after
    its authenticator time. *)
Lemma forwarded_only_when_validated_witness :
  exists c' : Conn,
    SPNEGOKRB5Authenticate (readings [2 * minute]) (scripted [krb5_oid] ap a)
      hello tt (request_with ["Negotiate YWJj"]) connection
    = Returned c'
    /\ exists (tok : string) (b : list Byte.byte) (nInit : GSSAPI.NegTokenInit)
             (rest : list GSSAPI.ObjectIdentifier) (mt : GSSAPI.MechToken)
             (tkt : messages.Ticket) (ab : list Byte.byte)
             (ath : types.Authenticator),
         http.Get (http.Header_ (request_with ["Negotiate YWJj"])) "Authorization"
         = "Negotiate " +:+ tok
         /\ DecodeString (scripted [krb5_oid] ap a) tok = inl b
         /\ UnmarshalNegToken (scripted [krb5_oid] ap a) b
            = (true, GSSAPI.Init nInit, None)
         /\ GSSAPI.MechTypes nInit
            = MechTypeOID_Krb5 (scripted [krb5_oid] ap a) :: rest
         /\ MechToken_Unmarshal (scripted [krb5_oid] ap a) (GSSAPI.MechToken_ nInit)
            = inl mt
         /\ IsAPReq (scripted [krb5_oid] ap a) mt = true
         /\ Ticket_DecryptEncPart (scripted [krb5_oid] ap a)
              (messages.Ticket_ (GSSAPI.APReq mt)) tt = inl tkt
         /\ DecryptEncPart (scripted [krb5_oid] ap a)
              (messages.Authenticator (GSSAPI.APReq mt))
              (messages.Key (messages.DecryptedEncPart tkt))
              (AP_REQ_AUTHENTICATOR (scripted [krb5_oid] ap a)) = inl ab
         /\ Authenticator_Unmarshal (scripted [krb5_oid] ap a) ab = inl ath
         /\ (validateAPREQ (readings [2 * minute]) ath
               (messages.mkAPReq tkt (messages.Authenticator (GSSAPI.APReq mt)))
               (world connection)).1.1 = true
         /\ world c'
            = (validateAPREQ (readings [2 * minute]) ath
                 (messages.mkAPReq tkt (messages.Authenticator (GSSAPI.APReq mt)))
                 (world connection)).2
         /\ forwarded c'
            = forwarded connection
              ++ [http.WithContext (request_with ["Negotiate YWJj"])
                    (("authenticated", http.VBool true)
                     :: ("crealm", http.VString (types.CRealm ath))
                     :: ("cname",
                         http.VString (types.GetPrincipalNameString (types.CName ath)))
                     :: http.ctx_ (request_with ["Negotiate YWJj"]))].
Proof.
  eexists. split; [reflexivity |].
  apply (forwarded_only_when_validated (readings [2 * minute])
           (scripted [krb5_oid] ap a) hello tt
           (request_with ["Negotiate YWJj"]) connection).
  - reflexivity.
  - discriminate.
Defined.

(** X8 at a concrete input: the credential presented ten minutes stale, to
    a logger that had printed nothing. *)
Lemma rejection_logs_one_line_witness :
  exists (c' : Conn) (detail : string),
    SPNEGOKRB5Authenticate (readings [10 * minute]) (scripted [krb5_oid] ap a)
      hello tt (request_with ["Negotiate YWJj"]) connection
    = Returned c'
    /\ l c' = Some ["192.0.2.7:40000" +:+ " - " +:+ detail].
Proof.
  eexists.
  destruct (proj2 (proj2 (rejection_logs_one_line (readings [10 * minute])
              (scripted [krb5_oid] ap a) hello tt
              (request_with ["Negotiate YWJj"]) connection _ eq_refl))
              (ex_intro _ "YWJj" eq_refl) eq_refl) as [detail Hl].
  exists detail. split; [reflexivity | exact Hl].
Defined.

(** X9 at a concrete input: the credential presented ten minutes stale. *)
Lemma validation_failure_rejects_witness :
  exists e : messages.KRBError,
    (validateAPREQ (readings [10 * minute]) a ap boot).1.2 = Some e
    /\ SPNEGOKRB5Authenticate (readings [10 * minute]) (scripted [krb5_oid] ap a)
         hello tt (request_with ["Negotiate YWJj"]) connection
       = Returned
           (mkConn (validateAPREQ (readings [10 * minute]) a ap boot).2
              ((fun lines =>
                  lines ++ ["192.0.2.7:40000"
                            +:+ " - SPNEGO Kerberos authentication failed: "
                            +:+ messages.EText e]) <$> Some [])
              (http.Write
                 (http.WriteHeader
                    (http.SetHeader (http.fresh ∅) "WWW-Authenticate"
                       "Negotiate oQcwBaADCgEC")
                    401)
                 ("Unauthorised." +:+ newline))
              []).
Proof.
  apply (validation_failure_rejects (readings [10 * minute])
           (scripted [krb5_oid] ap a) hello tt
           (request_with ["Negotiate YWJj"]) connection
           "YWJj" [] (GSSAPI.mkNegTokenInit [krb5_oid] []) []
           (GSSAPI.mkMechToken [] ap) (messages.Ticket_ ap) [] a);
    reflexivity.
Defined.


(** X11 at a concrete input: the stale credential, with a downstream handler
    that writes nothing in place of the greeting one. *)
Lemma rejection_ignores_downstream_witness :
  exists c' : Conn,
    SPNEGOKRB5Authenticate (readings [10 * minute]) (scripted [krb5_oid] ap a)
      hello tt (request_with ["Negotiate YWJj"]) connection
    = Returned c'
    /\ SPNEGOKRB5Authenticate (readings [10 * minute]) (scripted [krb5_oid] ap a)
         (fun w _ => w) tt (request_with ["Negotiate YWJj"]) connection
       = Returned c'.
Proof.
  eexists. split; [reflexivity |].
  apply (rejection_ignores_downstream (readings [10 * minute])
           (scripted [krb5_oid] ap a) hello tt
           (request_with ["Negotiate YWJj"]) connection).
  - reflexivity.
  - reflexivity.
Defined.

End ConcreteMore.
